(** * EnhancedPostTable: the state and interaction engine of Table.tsx

    A shallow embedding of [src/app/ReusableComponents/Tables/Table.tsx].
    The component keeps nine [useState] slots and changes them from event
    handlers ([handleSort], [toggleColumnVisibility], [applyFilter],
    [onDragEnd], the pagination buttons) and from the asynchronous
    [fetchResults].  The embedding has three layers:

    - [JS]: the JavaScript primitives the handlers call ([parseInt],
      [Math.ceil], [Math.min], [Math.max], [Array.prototype.splice],
      [Array.prototype.sort], [String.prototype.toUpperCase], ...);
    - the component state, and a small state-and-exception monad in which
      a handler reads the values captured by its render closure and writes
      through the setters;
    - the handlers themselves, one definition per source function. *)

From Stdlib Require Import ZArith List String Ascii Bool Lia.
From Stdlib Require Import Permutation Sorted DecimalString.
From Stdlib Require DecimalZ.
Import ListNotations.

Local Open Scope string_scope.
Local Open Scope list_scope.
Local Open Scope Z_scope.

(** ** JavaScript primitives *)

Module JS.

(** A JavaScript number as the component meets it: an integer, or one of the
    three values that integer arithmetic cannot produce.  Integers are exact
    in a double below 2^53, and [Math.ceil (a / b)] on such integers is the
    integer ceiling, so page counts and page numbers are carried as [Z].
    The two zeros are not told apart: they are [===] and print alike. *)
Inductive number : Type :=
  | NaN
  | NegInfinity
  | Infinity
  | Int (z : Z).

Definition number_eqb (a b : number) : bool :=
  match a, b with
  | NegInfinity, NegInfinity => true
  | Infinity, Infinity => true
  | Int x, Int y => x =? y
  | _, _ => false
  end.

(** [a < b] on numbers; every comparison with [NaN] is false. *)
Definition number_ltb (a b : number) : bool :=
  match a, b with
  | NaN, _ | _, NaN => false
  | NegInfinity, NegInfinity => false
  | NegInfinity, _ => true
  | _, NegInfinity => false
  | Infinity, _ => false
  | Int _, Infinity => true
  | Int x, Int y => x <? y
  end.

Definition neg (a : number) : number :=
  match a with
  | NaN => NaN
  | NegInfinity => Infinity
  | Infinity => NegInfinity
  | Int x => Int (- x)
  end.

Definition add (a b : number) : number :=
  match a, b with
  | NaN, _ | _, NaN => NaN
  | Infinity, NegInfinity | NegInfinity, Infinity => NaN
  | Infinity, _ | _, Infinity => Infinity
  | NegInfinity, _ | _, NegInfinity => NegInfinity
  | Int x, Int y => Int (x + y)
  end.

Definition sub (a b : number) : number := add a (neg b).

(** [Math.max(a, b)] and [Math.min(a, b)]: [NaN] if either argument is. *)
Definition Math_max (a b : number) : number :=
  match a, b with
  | NaN, _ | _, NaN => NaN
  | _, _ => if number_ltb a b then b else a
  end.

Definition Math_min (a b : number) : number :=
  match a, b with
  | NaN, _ | _, NaN => NaN
  | _, _ => if number_ltb b a then b else a
  end.

(** [Math.ceil(a / b)] for an integer divisor [b].  Division by zero gives
    an infinity of the sign of [a], and [NaN] for [0 / 0]; otherwise the
    quotient is rounded up. *)
Definition Math_ceil_div (a : number) (b : Z) : number :=
  match a with
  | NaN => NaN
  | Infinity => if b <? 0 then NegInfinity else Infinity
  | NegInfinity => if b <? 0 then Infinity else NegInfinity
  | Int x =>
      if b =? 0 then
        if x =? 0 then NaN else if 0 <? x then Infinity else NegInfinity
      else Int (- ((- x) / b))
  end.

(** [String(n)], as a template literal prints a number. *)
Definition number_to_string (n : number) : string :=
  match n with
  | NaN => "NaN"
  | Infinity => "Infinity"
  | NegInfinity => "-Infinity"
  | Int z => NilZero.string_of_int (Z.to_int z)
  end.

(** Strings are ASCII strings: field names, header values and URLs. *)

Definition is_white_space (c : ascii) : bool :=
  let n := nat_of_ascii c in
  ((9 <=? n) && (n <=? 13))%nat || (n =? 32)%nat.

Fixpoint skip_white_space (s : string) : string :=
  match s with
  | String c r => if is_white_space c then skip_white_space r else s
  | EmptyString => s
  end.

Definition digit_value (c : ascii) : option Z :=
  let n := nat_of_ascii c in
  if ((48 <=? n) && (n <=? 57))%nat then Some (Z.of_nat n - 48) else None.

(** The longest prefix of decimal digits, as an integer; [acc] is [None]
    until a digit has been read. *)
Fixpoint parse_digits (acc : option Z) (s : string) : option Z :=
  match s with
  | String c r =>
      match digit_value c with
      | Some d =>
          parse_digits
            (Some (10 * match acc with Some n => n | None => 0 end + d)) r
      | None => acc
      end
  | EmptyString => acc
  end.

(** [parseInt(s, 10)]: leading white space, an optional sign, then the
    longest run of decimal digits; [NaN] when there is no digit. *)
Definition parseInt (s : string) : number :=
  let s1 := skip_white_space s in
  let '(negative, s2) :=
    match s1 with
    | String "-" r => (true, r)
    | String "+" r => (false, r)
    | _ => (false, s1)
    end in
  match parse_digits None s2 with
  | Some n => Int (if negative then - n else n)
  | None => NaN
  end.

(** [h || "0"] for a header value [h] that is a string or [null]. *)
Definition or_default (h : option string) (d : string) : string :=
  match h with
  | Some EmptyString | None => d
  | Some s => s
  end.

Definition upper_char (c : ascii) : ascii :=
  let n := nat_of_ascii c in
  if ((97 <=? n) && (n <=? 122))%nat then ascii_of_nat (n - 32) else c.

(** [s.toUpperCase()] *)
Fixpoint toUpperCase (s : string) : string :=
  match s with
  | String c r => String (upper_char c) (toUpperCase r)
  | EmptyString => EmptyString
  end.

(** An object is the list of its own enumerable string-keyed properties in
    the order [Object.keys] lists them. *)
Definition object (V : Type) : Type := list (string * V).

Definition Object_keys {V} (o : object V) : list string := map fst o.

(** [o[k]]: the value of property [k], [undefined] when [o] has none. *)
Fixpoint get {V} (undefined : V) (o : object V) (k : string) : V :=
  match o with
  | (k', v) :: r => if String.eqb k' k then v else get undefined r k
  | [] => undefined
  end.

(** [arr.splice(start, deleteCount, ...items)]: the removed elements and
    the array as it is afterwards.  A negative [start] counts from the end,
    and both arguments are clamped to the array. *)
Definition splice {A} (arr : list A) (start deleteCount : Z) (items : list A)
  : list A * list A :=
  let len := Z.of_nat (List.length arr) in
  let actualStart :=
    if start <? 0 then Z.max (len + start) 0 else Z.min start len in
  let actualDeleteCount := Z.min (Z.max deleteCount 0) (len - actualStart) in
  let s := Z.to_nat actualStart in
  let d := Z.to_nat actualDeleteCount in
  (firstn d (skipn s arr), firstn s arr ++ items ++ skipn (s + d) arr).

(** [const [x] = arr]: the first element, [undefined] for an empty array. *)
Definition first_or {A} (undefined : A) (arr : list A) : A :=
  match arr with
  | x :: _ => x
  | [] => undefined
  end.

(** [arr.sort(cmp)] on a copy.  The sort is stable: an element moves behind
    another only when the comparator says it is greater.  For a consistent
    comparator every stable sort returns this list; for an inconsistent one
    the order is left to the engine and this is one admissible outcome. *)
Fixpoint sort_insert {A} (cmp : A -> A -> Z) (x : A) (l : list A) : list A :=
  match l with
  | y :: r => if 0 <? cmp x y then y :: sort_insert cmp x r else x :: l
  | [] => [x]
  end.

Fixpoint sort {A} (cmp : A -> A -> Z) (l : list A) : list A :=
  match l with
  | x :: r => sort_insert cmp x (sort cmp r)
  | [] => []
  end.

End JS.

(** ** The component: props, state and effects *)

(** [interface Column] *)
Record Column : Type := {
  key : string;
  label : string;
  visible : bool
}.

(** [type EnhancedPostTableProps]; [pagePerRecord] is an integer. *)
Record EnhancedPostTableProps : Type := {
  tableName : string;
  apiEndpoint : string;
  isFilter : bool;
  isSearch : bool;
  isSort : bool;
  isPagination : bool;
  pagePerRecord : Z;
  columnToogle : bool
}.

(** The type of [sortDirection]: ["asc" | "desc"]. *)
Inductive Direction : Type := asc | desc.

(** What [onDragEnd] reads of a [DropResult]: where the drag started and,
    unless the item was dropped outside the list, where it ended. *)
Record DraggableLocation : Type := {
  droppableId : string;
  index : Z
}.

Record DropResult : Type := {
  source : DraggableLocation;
  destination : option DraggableLocation
}.

(** What can be thrown inside a handler: [fetch] rejecting, [response.json()]
    rejecting, and a property read on [undefined]. *)
Inductive Exception : Type :=
  | FetchRejected
  | JsonRejected
  | TypeError.

(** What a handler does besides changing the state. *)
Inductive Event : Type :=
  | Request (url : string)
  | ConsoleError (text : string) (error : Exception).

Inductive Completion (A : Type) : Type :=
  | Normal (a : A)
  | Throw (e : Exception).

Arguments Normal {A} a.
Arguments Throw {A} e.

Section Component.

(** The values held in record fields. *)
Context {Value : Type}.

(** [interface Post { [key: string]: any }] *)
Definition Post : Type := JS.object Value.

(** The nine [useState] slots.  An entry of [columns] is [None] where the
    array holds [undefined], which [onDragEnd] can put there. *)
Record State : Type := {
  results : list Post;
  currentPage : JS.number;
  totalPages : JS.number;
  titleFilter : string;
  bodyFilter : string;
  sortColumn : option string;
  sortDirection : Direction;
  columns : list (option Column);
  isLoading : bool
}.

(** The state at mount, from the arguments of the [useState] calls. *)
Definition initial : State := {|
  results := [];
  currentPage := JS.Int 1;
  totalPages := JS.Int 0;
  titleFilter := "";
  bodyFilter := "";
  sortColumn := None;
  sortDirection := asc;
  columns := [];
  isLoading := false
|}.

Record World : Type := {
  state : State;
  trace : list Event
}.

(** A response as [fetchResults] uses it: [response.json()] ([None] when
    the body does not decode) and [response.headers.get]. *)
Record Response : Type := {
  json : option (list Post);
  headers_get : string -> option string
}.

Inductive FetchResult : Type :=
  | Rejects
  | Resolves (response : Response).

(** The endpoint: what [fetch(url)] settles to. *)
Definition Network : Type := string -> FetchResult.

(** *** The handler monad: state, trace and exceptions *)

Definition M (A : Type) : Type := World -> Completion A * World.

Definition ret {A} (a : A) : M A := fun w => (Normal a, w).

Definition bind {A B} (m : M A) (k : A -> M B) : M B :=
  fun w =>
    match m w with
    | (Normal a, w1) => k a w1
    | (Throw e, w1) => (Throw e, w1)
    end.

Definition throw {A} (e : Exception) : M A := fun w => (Throw e, w).

Definition modify (f : State -> State) : M unit :=
  fun w => (Normal tt, {| state := f (state w); trace := trace w |}).

Definition emit (ev : Event) : M unit :=
  fun w => (Normal tt, {| state := state w; trace := trace w ++ [ev] |}).

(** [try { body } catch (error) { handler } finally { final }] *)
Definition try_catch_finally (body : M unit) (handler : Exception -> M unit)
    (final : M unit) : M unit :=
  fun w =>
    let '(c1, w1) := body w in
    let '(c2, w2) :=
      match c1 with
      | Normal a => (Normal a, w1)
      | Throw e => handler e w1
      end in
    match final w2 with
    | (Normal _, w3) => (c2, w3)
    | (Throw e, w3) => (Throw e, w3)
    end.

End Component.

Arguments State : clear implicits.
Arguments World : clear implicits.
Arguments Response : clear implicits.
Arguments FetchResult : clear implicits.
Arguments Network : clear implicits.
Arguments Post : clear implicits.
Arguments M : clear implicits.

Declare Scope handler_scope.
Delimit Scope handler_scope with handler.

Notation "x <- m ;; k" := (bind m (fun x => k))
  (at level 61, m at next level, right associativity) : handler_scope.
Notation "m ;; k" := (bind m (fun _ => k))
  (at level 61, right associativity) : handler_scope.

(** ** The handlers *)

Section Handlers.

Local Open Scope handler_scope.

(** The values held in record fields, the [undefined] a missing field reads
    as, and JavaScript's [<] on them; [a > b] is [b < a]. *)
Context {Value : Type}.
Variable undefined : Value.
Variable lt : Value -> Value -> bool.

Variable props : EnhancedPostTableProps.

(** A handler body: a computation that returns nothing. *)
Definition Handler : Type := M Value unit.

(** The setters.  [setCurrentPage] is also called with an updater function,
    so it takes one everywhere. *)

Definition setResults (v : list (Post Value)) : Handler :=
  modify (fun s => {|
    results := v; currentPage := currentPage s; totalPages := totalPages s;
    titleFilter := titleFilter s; bodyFilter := bodyFilter s;
    sortColumn := sortColumn s; sortDirection := sortDirection s;
    columns := columns s; isLoading := isLoading s |}).

Definition setCurrentPage (f : JS.number -> JS.number) : Handler :=
  modify (fun s => {|
    results := results s; currentPage := f (currentPage s);
    totalPages := totalPages s;
    titleFilter := titleFilter s; bodyFilter := bodyFilter s;
    sortColumn := sortColumn s; sortDirection := sortDirection s;
    columns := columns s; isLoading := isLoading s |}).

Definition setTotalPages (v : JS.number) : Handler :=
  modify (fun s => {|
    results := results s; currentPage := currentPage s; totalPages := v;
    titleFilter := titleFilter s; bodyFilter := bodyFilter s;
    sortColumn := sortColumn s; sortDirection := sortDirection s;
    columns := columns s; isLoading := isLoading s |}).

Definition setTitleFilter (v : string) : Handler :=
  modify (fun s => {|
    results := results s; currentPage := currentPage s;
    totalPages := totalPages s;
    titleFilter := v; bodyFilter := bodyFilter s;
    sortColumn := sortColumn s; sortDirection := sortDirection s;
    columns := columns s; isLoading := isLoading s |}).

Definition setBodyFilter (v : string) : Handler :=
  modify (fun s => {|
    results := results s; currentPage := currentPage s;
    totalPages := totalPages s;
    titleFilter := titleFilter s; bodyFilter := v;
    sortColumn := sortColumn s; sortDirection := sortDirection s;
    columns := columns s; isLoading := isLoading s |}).

Definition setSortColumn (v : option string) : Handler :=
  modify (fun s => {|
    results := results s; currentPage := currentPage s;
    totalPages := totalPages s;
    titleFilter := titleFilter s; bodyFilter := bodyFilter s;
    sortColumn := v; sortDirection := sortDirection s;
    columns := columns s; isLoading := isLoading s |}).

Definition setSortDirection (v : Direction) : Handler :=
  modify (fun s => {|
    results := results s; currentPage := currentPage s;
    totalPages := totalPages s;
    titleFilter := titleFilter s; bodyFilter := bodyFilter s;
    sortColumn := sortColumn s; sortDirection := v;
    columns := columns s; isLoading := isLoading s |}).

Definition setColumns (v : list (option Column)) : Handler :=
  modify (fun s => {|
    results := results s; currentPage := currentPage s;
    totalPages := totalPages s;
    titleFilter := titleFilter s; bodyFilter := bodyFilter s;
    sortColumn := sortColumn s; sortDirection := sortDirection s;
    columns := v; isLoading := isLoading s |}).

Definition setIsLoading (v : bool) : Handler :=
  modify (fun s => {|
    results := results s; currentPage := currentPage s;
    totalPages := totalPages s;
    titleFilter := titleFilter s; bodyFilter := bodyFilter s;
    sortColumn := sortColumn s; sortDirection := sortDirection s;
    columns := columns s; isLoading := v |}).

(** [await fetch(url)]: the request goes out, then settles. *)
Definition fetch (net : Network Value) (url : string)
  : M Value (Response Value) :=
  emit (Request url) ;;
  match net url with
  | Resolves response => ret response
  | Rejects => throw FetchRejected
  end.

(** [await response.json()] *)
Definition response_json (response : Response Value)
  : M Value (list (Post Value)) :=
  match json response with
  | Some data => ret data
  | None => throw JsonRejected
  end.

(** The URL of line 77. *)
Definition request_url (page : JS.number) : string :=
  (apiEndpoint props ++ "?_page=" ++ JS.number_to_string page
   ++ "&_limit=" ++ JS.number_to_string (JS.Int (pagePerRecord props)))%string.

(** The object literal of lines 85-89. *)
Definition column_of_key (k : string) : Column :=
  {| key := k; label := JS.toUpperCase k; visible := true |}.

(** [fetchResults], lines 73-97.  The body is stored as it arrives; the
    columns are derived from [data[0]] when there is one. *)
Definition fetchResults (net : Network Value) (page : JS.number) : Handler :=
  setIsLoading true ;;
  try_catch_finally
    (response <- fetch net (request_url page) ;;
     data <- response_json response ;;
     setResults data ;;
     let totalCount :=
       JS.parseInt (JS.or_default (headers_get response "x-total-count") "0") in
     setTotalPages (JS.Math_ceil_div totalCount (pagePerRecord props)) ;;
     match data with
     | first :: _ =>
         setColumns
           (map (fun k => Some (column_of_key k)) (JS.Object_keys first))
     | [] => ret tt
     end)
    (fun error => emit (ConsoleError "Error fetching results:" error))
    (setIsLoading false).

(** [sortColumn === column] *)
Definition is_sort_column (c : option string) (column : string) : bool :=
  match c with
  | Some c' => String.eqb c' column
  | None => false
  end.

(** The comparator of lines 109-113, for the direction the closure holds. *)
Definition compare_by (direction : Direction) (column : string)
    (a b : Post Value) : Z :=
  if lt (JS.get undefined a column) (JS.get undefined b column) then
    match direction with asc => -1 | desc => 1 end
  else if lt (JS.get undefined b column) (JS.get undefined a column) then
    match direction with asc => 1 | desc => -1 end
  else 0.

(** [handleSort], lines 99-115.  [render] is the state of the render whose
    closure the handler is: every read of a state variable is a read of
    [render], whatever the setters have been given in the meantime. *)
Definition handleSort (render : State Value) (column : string) : Handler :=
  if negb (isSort props) then ret tt
  else
    (if is_sort_column (sortColumn render) column then
       setSortDirection
         (match sortDirection render with asc => desc | desc => asc end)
     else
       setSortColumn (Some column) ;;
       setSortDirection asc) ;;
    let sorted :=
      JS.sort (compare_by (sortDirection render) column) (results render) in
    setResults sorted.

(** The callback of [columns.map] in lines 121-123; reading [col.key] of
    [undefined] throws. *)
Definition toggle_one (k : string) (col : option Column)
  : option (option Column) :=
  match col with
  | Some c =>
      Some (if String.eqb (key c) k then
              Some {| key := key c; label := label c;
                      visible := negb (visible c) |}
            else col)
  | None => None
  end.

(** [arr.map(f)] for a callback that may throw: [None] when it did. *)
Fixpoint map_throwing {A B} (f : A -> option B) (l : list A)
  : option (list B) :=
  match l with
  | x :: r =>
      match f x with
      | Some y =>
          match map_throwing f r with
          | Some r' => Some (y :: r')
          | None => None
          end
      | None => None
      end
  | [] => Some []
  end.

(** [toggleColumnVisibility], lines 117-125 *)
Definition toggleColumnVisibility (render : State Value) (k : string) : Handler :=
  if negb (columnToogle props) then ret tt
  else
    match map_throwing (toggle_one k) (columns render) with
    | Some cols => setColumns cols
    | None => throw TypeError
    end.

(** [applyFilter], lines 127-131 *)
Definition applyFilter (net : Network Value) : Handler :=
  if negb (isFilter props) then ret tt
  else
    setCurrentPage (fun _ => JS.Int 1) ;;
    fetchResults net (JS.Int 1).

(** [onDragEnd], lines 133-141 *)
Definition onDragEnd (render : State Value) (result : DropResult) : Handler :=
  match destination result with
  | None => ret tt
  | Some dest =>
      if negb (columnToogle props) then ret tt
      else
        let newColumns := columns render in
        let '(removed, newColumns) :=
          JS.splice newColumns (index (source result)) 1 [] in
        let reorderedColumn := JS.first_or None removed in
        let '(_, newColumns) :=
          JS.splice newColumns (index dest) 0 [reorderedColumn] in
        setColumns newColumns
  end.

(** The previous-page button, lines 247-254 *)
Definition previous : Handler :=
  setCurrentPage (fun prev => JS.Math_max (JS.sub prev (JS.Int 1)) (JS.Int 1)).

Definition previous_disabled (render : State Value) : bool :=
  JS.number_eqb (currentPage render) (JS.Int 1) || isLoading render.

(** The next-page button, lines 271-278 *)
Definition next (render : State Value) : Handler :=
  setCurrentPage
    (fun prev => JS.Math_min (JS.add prev (JS.Int 1)) (totalPages render)).

Definition next_disabled (render : State Value) : bool :=
  JS.number_eqb (currentPage render) (totalPages render) || isLoading render.

(** A numbered page button, line 261 *)
Definition goTo (pageNumber : JS.number) : Handler :=
  setCurrentPage (fun _ => pageNumber).

(** The effect of lines 69-71, run after a render in which [currentPage]
    or [pagePerRecord] has changed. *)
Definition effect (net : Network Value) (render : State Value) : Handler :=
  fetchResults net (currentPage render).

(** An event reaches the handler of the current render: the closure holds
    the state the world is in. *)
Definition dispatch (h : State Value -> Handler) (w : World Value)
  : Completion unit * World Value :=
  h (state w) w.

(** The world after the event, once the handler has returned or thrown. *)
Definition after (h : State Value -> Handler) (w : World Value) : World Value :=
  snd (dispatch h w).

End Handlers.

Arguments Handler : clear implicits.

(** ** Actions and sequences of events *)

Section Actions.

Context {Value : Type}.
Variable undefined : Value.
Variable lt : Value -> Value -> bool.
Variable props : EnhancedPostTableProps.
Variable net : Network Value.

(** The two pagination buttons. *)
Inductive PageAction : Type := Previous | Next.

Definition navigate (a : PageAction) (render : State Value)
  : Handler Value :=
  match a with
  | Previous => previous
  | Next => next render
  end.

(** The buttons pressed one after the other, a render between two events. *)
Fixpoint navigate_all (l : list PageAction) (w : World Value)
  : World Value :=
  match l with
  | a :: r => navigate_all r (after (navigate a) w)
  | [] => w
  end.

(** The four actions a capability flag governs. *)
Inductive Action : Type :=
  | Sort (column : string)
  | ToggleVisibility (k : string)
  | Reorder (result : DropResult)
  | ApplyFilter.

Definition perform (a : Action) (render : State Value) : Handler Value :=
  match a with
  | Sort column => handleSort undefined lt props render column
  | ToggleVisibility k => toggleColumnVisibility props render k
  | Reorder result => onDragEnd props render result
  | ApplyFilter => applyFilter props net
  end.

(** The flag each handler tests before anything else. *)
Definition governing_flag (a : Action) : bool :=
  match a with
  | Sort _ => isSort props
  | ToggleVisibility _ | Reorder _ => columnToogle props
  | ApplyFilter => isFilter props
  end.

End Actions.

(** The URLs requested in a trace, oldest first. *)
Fixpoint requests (t : list Event) : list string :=
  match t with
  | Request url :: r => url :: requests r
  | ConsoleError _ _ :: r => requests r
  | [] => []
  end.

(** [fetch] rejected, or the body did not decode. *)
Definition fetch_fails {Value} (net : Network Value) (url : string) : bool :=
  match net url with
  | Rejects => true
  | Resolves response =>
      match json response with
      | None => true
      | Some _ => false
      end
  end.

(** A page number [p] lies in [[1, totalPages]]. *)
Definition in_page_range (p tp : JS.number) : Prop :=
  match p, tp with
  | JS.Int x, JS.Int y => 1 <= x <= y
  | _, _ => False
  end.

(** Where the element at position [i] of a sequence comes from, after the
    element at [from] has been moved to [to] and those between shifted. *)
Definition origin (from to i : nat) : nat :=
  if (i =? to)%nat then from
  else if ((from <=? i) && (i <? to))%nat then S i
  else if ((to <? i) && (i <=? from))%nat then pred i
  else i.

(** ** A sample endpoint

    Three posts whose fields hold integers; a missing field reads as
    [undefined], which [<] compares as [NaN]: never less, never greater. *)

Module Sample.

Definition value : Type := option Z.

Definition undefined : value := None.

Definition lt (a b : value) : bool :=
  match a, b with
  | Some x, Some y => x <? y
  | _, _ => false
  end.

Definition post (userId id : Z) : Post value :=
  [("userId", Some userId); ("id", Some id)].

Definition page : list (Post value) := [post 1 3; post 1 1; post 1 2].

Definition props : EnhancedPostTableProps := {|
  tableName := "posts";
  apiEndpoint := "https://example.test/posts";
  isFilter := true;
  isSearch := false;
  isSort := true;
  isPagination := true;
  pagePerRecord := 10;
  columnToogle := true
|}.

(** The same table with every capability switched off. *)
Definition locked : EnhancedPostTableProps := {|
  tableName := "posts";
  apiEndpoint := "https://example.test/posts";
  isFilter := false;
  isSearch := false;
  isSort := false;
  isPagination := false;
  pagePerRecord := 10;
  columnToogle := false
|}.

(** An endpoint that answers every request with [page] and the header
    [x-total-count: count]. *)
Definition serving (count : option string) : Network value :=
  fun _ =>
    Resolves {|
      json := Some page;
      headers_get := fun name =>
        if String.eqb name "x-total-count" then count else None
    |}.

(** An endpoint that cannot be reached. *)
Definition unreachable : Network value := fun _ => Rejects.

Definition mounted : World value := {| state := initial; trace := [] |}.

(** The table after mount and the first fetch: a freshly fetched page, no
    active sort. *)
Definition fetched : World value :=
  after (effect props (serving (Some "3"))) mounted.

Definition click_header (column : string) (w : World value) : World value :=
  after (fun render => handleSort undefined lt props render column) w.

Definition ids (w : World value) : list value :=
  map (fun p => JS.get undefined p "id") (results (state w)).

Definition three_columns : list (option Column) :=
  [Some (column_of_key "a"); Some (column_of_key "b");
   Some (column_of_key "c")].

Definition with_columns (cols : list (option Column)) : World value := {|
  state := {|
    results := []; currentPage := JS.Int 1; totalPages := JS.Int 0;
    titleFilter := ""; bodyFilter := "";
    sortColumn := None; sortDirection := asc;
    columns := cols; isLoading := false |};
  trace := []
|}.

Definition drop (from to : Z) : DropResult := {|
  source := {| droppableId := "columns"; index := from |};
  destination := Some {| droppableId := "columns"; index := to |}
|}.

End Sample.

(** ** Rendering and the effect

    What the JSX of lines 143-283 computes from the state: the visible
    columns, the header cells, the rows of cells and the strip of numbered
    page buttons; and when the effect of lines 69-71 runs. *)

(** [a <= b] on numbers; false when either is [NaN]. *)
Definition number_leb (a b : JS.number) : bool :=
  match a, b with
  | JS.NaN, _ | _, JS.NaN => false
  | _, _ => negb (JS.number_ltb b a)
  end.

(** [Object.is(a, b)], by which React compares the dependencies of an
    effect: as [===], except that [NaN] is [NaN]. *)
Definition Object_is (a b : JS.number) : bool :=
  match a, b with
  | JS.NaN, JS.NaN => true
  | _, _ => JS.number_eqb a b
  end.

(** What stops a render: [Array(n)] for an [n] that is no array length, and
    a property read on an [undefined] column. *)
Inductive RenderError : Type :=
  | InvalidArrayLength
  | UndefinedColumn.

Inductive Rendered (A : Type) : Type :=
  | Shown (a : A)
  | Crashed (e : RenderError).

Arguments Shown {A} a.
Arguments Crashed {A} e.

(** A header cell, lines 216-229: the column whose key a click passes to
    [handleSort], the label, and the chevron when there is one. *)
Record HeaderCell : Type := {
  sorts_by : string;
  text : string;
  chevron : option Direction
}.

(** A numbered page button, lines 259-266: the page a click passes to
    [setCurrentPage], whether it is drawn as the current page, and whether
    it is disabled. *)
Record PageButton : Type := {
  pageNumber : JS.number;
  current : bool;
  disabled : bool
}.

Section Render.

Context {Value : Type}.
Variable undefined : Value.
Variable props : EnhancedPostTableProps.

(** [columns.filter((col) => col.visible)]; the callback throws on an
    [undefined] entry. *)
Fixpoint visible_columns (cols : list (option Column))
  : Rendered (list Column) :=
  match cols with
  | Some c :: r =>
      if visible c then
        match visible_columns r with
        | Shown r' => Shown (c :: r')
        | Crashed e => Crashed e
        end
      else visible_columns r
  | None :: _ => Crashed UndefinedColumn
  | [] => Shown []
  end.

(** The header cell of a visible column. *)
Definition header_cell (render : State Value) (col : Column) : HeaderCell :=
  {| sorts_by := key col;
     text := label col;
     chevron :=
       if isSort props && is_sort_column (sortColumn render) (key col)
       then Some (sortDirection render) else None |}.

(** The header row, lines 214-231 *)
Definition header_row (render : State Value) : Rendered (list HeaderCell) :=
  match visible_columns (columns render) with
  | Shown cols => Shown (map (header_cell render) cols)
  | Crashed e => Crashed e
  end.

(** [arr.map(f)] for a callback that may stop the render. *)
Fixpoint map_rendered {A B} (f : A -> Rendered B) (l : list A)
  : Rendered (list B) :=
  match l with
  | x :: r =>
      match f x with
      | Shown y =>
          match map_rendered f r with
          | Shown r' => Shown (y :: r')
          | Crashed e => Crashed e
          end
      | Crashed e => Crashed e
      end
  | [] => Shown []
  end.

(** The cells of one row, lines 235-239: [post[col.key]] for each visible
    column. *)
Definition row_cells (render : State Value) (post : Post Value)
  : Rendered (list Value) :=
  match visible_columns (columns render) with
  | Shown cols => Shown (map (fun col => JS.get undefined post (key col)) cols)
  | Crashed e => Crashed e
  end.

(** The table body, lines 233-241 *)
Definition body_rows (render : State Value) : Rendered (list (list Value)) :=
  map_rendered (row_cells render) (results render).

(** [[...Array(n)]] as the indices its [map] callback is called with;
    [Array(n)] throws unless [n] is an integer from 0 to 2^32 - 1. *)
Definition Array_indices (n : JS.number) : Rendered (list Z) :=
  match n with
  | JS.Int k =>
      if (k <? 0) || (4294967295 <? k) then Crashed InvalidArrayLength
      else Shown (map Z.of_nat (seq 0 (Z.to_nat k)))
  | _ => Crashed InvalidArrayLength
  end.

(** The callback of lines 255-270: a button, or [null]. *)
Definition page_button (render : State Value) (i : Z) : option PageButton :=
  let pageNumber :=
    JS.add (JS.sub (currentPage render) (JS.Int 2)) (JS.Int i) in
  if JS.number_ltb (JS.Int 0) pageNumber
     && number_leb pageNumber (totalPages render)
  then Some {| pageNumber := pageNumber;
               current := JS.number_eqb (currentPage render) pageNumber;
               disabled := isLoading render |}
  else None.

(** The entries of an array that are not [null], which is what is drawn. *)
Fixpoint drawn {A} (l : list (option A)) : list A :=
  match l with
  | Some x :: r => x :: drawn r
  | None :: r => drawn r
  | [] => []
  end.

(** The numbered buttons of the pagination strip, lines 255-270. *)
Definition page_buttons (render : State Value) : Rendered (list PageButton) :=
  match Array_indices (JS.Math_min (JS.Int 5) (totalPages render)) with
  | Shown indices => Shown (drawn (map (page_button render) indices))
  | Crashed e => Crashed e
  end.

(** The pagination strip, lines 245-280: nothing unless [isPagination]. *)
Definition pagination (render : State Value)
  : Rendered (option (list PageButton)) :=
  if isPagination props then
    match page_buttons render with
    | Shown buttons => Shown (Some buttons)
    | Crashed e => Crashed e
    end
  else Shown None.

(** An event and the render after it: the handler runs, and when
    [currentPage] is no longer what it was the effect fetches the new page.
    [pagePerRecord], the other dependency, is fixed for a mount. *)
Definition react (net : Network Value) (h : State Value -> Handler Value)
    (w : World Value) : World Value :=
  let w1 := after h w in
  if Object_is (currentPage (state w)) (currentPage (state w1)) then w1
  else after (effect props net) w1.

(** The first render: the effect runs on the initial state. *)
Definition mount (net : Network Value) : World Value :=
  after (effect props net) {| state := initial; trace := [] |}.

End Render.

(** An endpoint whose records hold integers in every field: a page of
    posts, served with the total [count] printed in decimal. *)
Module Numbers.

Definition post (userId id : Z) : Post Z := [("userId", userId); ("id", id)].

Definition page : list (Post Z) := [post 2 3; post 1 1; post 1 2; post 2 1].

Definition serving (count : Z) : Network Z :=
  fun _ =>
    Resolves {|
      json := Some page;
      headers_get := fun name =>
        if String.eqb name "x-total-count"
        then Some (JS.number_to_string (JS.Int count)) else None
    |}.

End Numbers.

(** The value of a decimal numeral read after the digits of [acc]. *)
Fixpoint uint_value (acc : Z) (d : Decimal.uint) : Z :=
  match d with
  | Decimal.Nil => acc
  | Decimal.D0 r => uint_value (10 * acc + 0) r
  | Decimal.D1 r => uint_value (10 * acc + 1) r
  | Decimal.D2 r => uint_value (10 * acc + 2) r
  | Decimal.D3 r => uint_value (10 * acc + 3) r
  | Decimal.D4 r => uint_value (10 * acc + 4) r
  | Decimal.D5 r => uint_value (10 * acc + 5) r
  | Decimal.D6 r => uint_value (10 * acc + 6) r
  | Decimal.D7 r => uint_value (10 * acc + 7) r
  | Decimal.D8 r => uint_value (10 * acc + 8) r
  | Decimal.D9 r => uint_value (10 * acc + 9) r
  end.

(** * Properties *)

(** ** The primitives on sample inputs *)

Example parseInt_digits : JS.parseInt "101" = JS.Int 101.
Proof. reflexivity. Qed.

Example parseInt_prefix : JS.parseInt "  -12px" = JS.Int (-12).
Proof. reflexivity. Qed.

Example parseInt_no_digit : JS.parseInt "abc" = JS.NaN.
Proof. reflexivity. Qed.

Example toUpperCase_userId : JS.toUpperCase "userId" = "USERID".
Proof. reflexivity. Qed.

Example splice_remove : JS.splice [1; 2; 3; 4] 1 1 [] = ([2], [1; 3; 4]).
Proof. reflexivity. Qed.

Example splice_past_the_end : JS.splice [1; 2; 3] 7 0 [9] = ([], [1; 2; 3; 9]).
Proof. reflexivity. Qed.

Example sort_stable :
  JS.sort (fun a b => fst a - fst b) [(2, "x"); (1, "y"); (2, "z"); (1, "w")]
  = [(1, "y"); (1, "w"); (2, "x"); (2, "z")].
Proof. reflexivity. Qed.

(** ** Sorting rearranges *)

Section SortFacts.

Context {A : Type}.
Variable cmp : A -> A -> Z.

Lemma sort_insert_perm (x : A) (l : list A) :
  Permutation (x :: l) (JS.sort_insert cmp x l).
Proof.
  induction l as [|y r IH]; simpl.
  - apply Permutation_refl.
  - destruct (0 <? cmp x y).
    + eapply perm_trans; [apply perm_swap|].
      now apply perm_skip.
    + apply Permutation_refl.
Qed.

Lemma sort_perm (l : list A) : Permutation l (JS.sort cmp l).
Proof.
  induction l as [|x r IH]; simpl.
  - constructor.
  - eapply perm_trans; [|apply sort_insert_perm].
    now apply perm_skip.
Qed.

Lemma sort_length (l : list A) : List.length (JS.sort cmp l) = List.length l.
Proof. symmetry. apply Permutation_length, sort_perm. Qed.

End SortFacts.

(** ** Sorting orders, for a consistent comparator *)

Section SortOrder.

Context {A : Type}.
Variable cmp : A -> A -> Z.

Hypothesis cmp_total : forall a b, 0 < cmp a b -> cmp b a <= 0.
Hypothesis cmp_trans :
  forall a b c, cmp a b <= 0 -> cmp b c <= 0 -> cmp a c <= 0.

Lemma sort_insert_sorted (x : A) (l : list A) :
  StronglySorted (fun a b => cmp a b <= 0) l ->
  StronglySorted (fun a b => cmp a b <= 0) (JS.sort_insert cmp x l).
Proof.
  induction 1 as [|y r Hr IH Hy]; simpl.
  - repeat constructor.
  - destruct (Z.ltb_spec 0 (cmp x y)) as [Hgt|Hle].
    + constructor; [exact IH|].
      apply (Permutation_Forall (sort_insert_perm cmp x r)).
      constructor; [now apply cmp_total | exact Hy].
    + constructor; [now constructor|].
      constructor; [exact Hle|].
      eapply Forall_impl; [|exact Hy].
      intros z Hz. now apply (cmp_trans x y z).
Qed.

Lemma sort_sorted (l : list A) :
  StronglySorted (fun a b => cmp a b <= 0) (JS.sort cmp l).
Proof.
  induction l as [|x r IH]; simpl.
  - constructor.
  - now apply sort_insert_sorted.
Qed.

End SortOrder.

Lemma StronglySorted_weaken {A : Type} (R R' : A -> A -> Prop) (l : list A) :
  (forall a b, R a b -> R' a b) ->
  StronglySorted R l -> StronglySorted R' l.
Proof.
  intros Himp. induction 1 as [|x r Hr IH Hx]; constructor.
  - exact IH.
  - eapply Forall_impl; [|exact Hx]. intros y. apply Himp.
Qed.

(** ** Fetching a page *)

Section FetchFacts.

Context {Value : Type}.
Variable props : EnhancedPostTableProps.
Variable net : Network Value.

Ltac run_fetch :=
  unfold fetchResults, try_catch_finally, bind, fetch, response_json,
    setIsLoading, setResults, setTotalPages, setColumns, modify, emit,
    throw, ret.

(** What a fetch leaves behind when the endpoint rejects. *)
Lemma fetchResults_rejected (page : JS.number) (w : World Value) :
  net (request_url props page) = Rejects ->
  exists w',
    fetchResults props net page w = (Normal tt, w')
    /\ results (state w') = results (state w)
    /\ columns (state w') = columns (state w)
    /\ totalPages (state w') = totalPages (state w)
    /\ isLoading (state w') = false
    /\ requests (trace w') = requests (trace w) ++ [request_url props page].
Proof.
  intros Hnet. run_fetch. rewrite Hnet. simpl.
  eexists. split; [reflexivity|]. simpl.
  repeat split.
  rewrite <- app_assoc. simpl.
  induction (trace w) as [|[u|t e] r IH]; simpl; congruence.
Qed.

(** What a fetch leaves behind when the body does not decode. *)
Lemma fetchResults_undecodable (page : JS.number) (w : World Value)
    (response : Response Value) :
  net (request_url props page) = Resolves response ->
  json response = None ->
  exists w',
    fetchResults props net page w = (Normal tt, w')
    /\ results (state w') = results (state w)
    /\ columns (state w') = columns (state w)
    /\ totalPages (state w') = totalPages (state w)
    /\ isLoading (state w') = false
    /\ requests (trace w') = requests (trace w) ++ [request_url props page].
Proof.
  intros Hnet Hjson. run_fetch. rewrite Hnet. simpl. rewrite Hjson. simpl.
  eexists. split; [reflexivity|]. simpl.
  repeat split.
  rewrite <- app_assoc. simpl.
  induction (trace w) as [|[u|t e] r IH]; simpl; congruence.
Qed.

(** What a fetch leaves behind when the body decodes to [data]. *)
Lemma fetchResults_resolved (page : JS.number) (w : World Value)
    (response : Response Value) (data : list (Post Value)) :
  net (request_url props page) = Resolves response ->
  json response = Some data ->
  exists w',
    fetchResults props net page w = (Normal tt, w')
    /\ results (state w') = data
    /\ columns (state w') =
         match data with
         | first :: _ =>
             map (fun k => Some (column_of_key k)) (JS.Object_keys first)
         | [] => columns (state w)
         end
    /\ totalPages (state w') =
         JS.Math_ceil_div
           (JS.parseInt
              (JS.or_default (headers_get response "x-total-count") "0"))
           (pagePerRecord props)
    /\ isLoading (state w') = false
    /\ currentPage (state w') = currentPage (state w)
    /\ requests (trace w') = requests (trace w) ++ [request_url props page].
Proof.
  intros Hnet Hjson. run_fetch. rewrite Hnet. simpl. rewrite Hjson. simpl.
  assert (Hreq : requests (trace w ++ [Request (request_url props page)])
                 = requests (trace w) ++ [request_url props page]).
  { induction (trace w) as [|[u|t e] r IH]; simpl; congruence. }
  destruct data as [|first rest]; simpl;
    (eexists; split; [reflexivity|]; simpl; repeat split; exact Hreq).
Qed.

End FetchFacts.

Section FetchFrame.

Context {Value : Type}.
Variable props : EnhancedPostTableProps.
Variable net : Network Value.

Lemma requests_app (t1 t2 : list Event) :
  requests (t1 ++ t2) = requests t1 ++ requests t2.
Proof.
  induction t1 as [|[u|t e] r IH]; simpl; congruence.
Qed.

(** Whatever the endpoint does, a fetch returns, sends one request, clears
    the loading flag and leaves page number, filters and sort state alone. *)
Lemma fetchResults_frame (page : JS.number) (w : World Value) :
  exists w',
    fetchResults props net page w = (Normal tt, w')
    /\ isLoading (state w') = false
    /\ currentPage (state w') = currentPage (state w)
    /\ titleFilter (state w') = titleFilter (state w)
    /\ bodyFilter (state w') = bodyFilter (state w)
    /\ sortColumn (state w') = sortColumn (state w)
    /\ sortDirection (state w') = sortDirection (state w)
    /\ requests (trace w') = requests (trace w) ++ [request_url props page].
Proof.
  unfold fetchResults, try_catch_finally, bind, fetch, response_json,
    setIsLoading, setResults, setTotalPages, setColumns, modify, emit,
    throw, ret.
  simpl.
  destruct (net (request_url props page)) as [|response]; simpl.
  - eexists; split; [reflexivity|]; simpl; repeat split.
    now rewrite !requests_app, <- app_assoc, app_nil_r.
  - destruct (json response) as [[|first rest]|]; simpl;
      (eexists; split; [reflexivity|]; simpl; repeat split;
       now rewrite !requests_app, ?app_nil_r, <- ?app_assoc, ?app_nil_r).
Qed.

End FetchFrame.

Section FetchClaims.

Context {Value : Type}.
Variable props : EnhancedPostTableProps.
Variable net : Network Value.

(** C3. When the fetch of a page fails, because the request is rejected or
    because the body of the response does not decode, [fetchResults] still
    returns normally, and afterwards [results] and [columns] are what they
    were before the fetch and [isLoading] is [false]. *)
Theorem fetch_failure_is_absorbed (page : JS.number) (w : World Value) :
  fetch_fails net (request_url props page) = true ->
  exists w',
    fetchResults props net page w = (Normal tt, w')
    /\ results (state w') = results (state w)
    /\ columns (state w') = columns (state w)
    /\ isLoading (state w') = false.
Proof.
  unfold fetch_fails. intros Hfail.
  destruct (net (request_url props page)) as [|response] eqn:Hnet.
  - destruct (fetchResults_rejected props net page w Hnet)
      as (w' & Hrun & Hres & Hcols & _ & Hload & _).
    exists w'. auto.
  - destruct (json response) as [data|] eqn:Hjson; [discriminate|].
    destruct (fetchResults_undecodable props net page w response Hnet Hjson)
      as (w' & Hrun & Hres & Hcols & _ & Hload & _).
    exists w'. auto.
Qed.

(** C4. After a fetch whose response decodes to a list with at least one
    record, the columns are the field names of the first record in the
    order [Object.keys] lists them, each with [visible = true] and the
    upper-cased key as label; after a fetch whose response decodes to the
    empty list, the columns are what they were before. *)
Theorem columns_after_fetch (page : JS.number) (w : World Value)
    (response : Response Value) (data : list (Post Value)) :
  net (request_url props page) = Resolves response ->
  json response = Some data ->
  columns (state (snd (fetchResults props net page w))) =
    match data with
    | first :: _ =>
        map (fun k =>
               Some {| key := k; label := JS.toUpperCase k; visible := true |})
          (JS.Object_keys first)
    | [] => columns (state w)
    end.
Proof.
  intros Hnet Hjson.
  destruct (fetchResults_resolved props net page w response data Hnet Hjson)
    as (w' & Hrun & _ & Hcols & _).
  rewrite Hrun. simpl. exact Hcols.
Qed.

(** C7, amended.  After a fetch that succeeds, with a positive page size:
    an absent [x-total-count] header gives [totalPages = 0]; a header from
    which [parseInt] reads the integer [n] gives the least [k] with
    [n <= pagePerRecord * k], that is [ceil (n / pagePerRecord)]; and with a
    page size of 10 the counts 0, 1, 100 and 101 give 0, 1, 10 and 11
    pages. *)
Theorem totalPages_after_fetch (page : JS.number) (w : World Value)
    (response : Response Value) (data : list (Post Value)) :
  0 < pagePerRecord props ->
  net (request_url props page) = Resolves response ->
  json response = Some data ->
  let header := headers_get response "x-total-count" in
  let pages := totalPages (state (snd (fetchResults props net page w))) in
  (header = None -> pages = JS.Int 0)
  /\ (forall h n, header = Some h -> JS.parseInt h = JS.Int n ->
        exists k, pages = JS.Int k
                  /\ pagePerRecord props * (k - 1) < n <= pagePerRecord props * k)
  /\ (pagePerRecord props = 10 ->
      forall h n k, header = Some h -> JS.parseInt h = JS.Int n ->
        In (n, k) [(0, 0); (1, 1); (100, 10); (101, 11)] ->
        pages = JS.Int k).
Proof.
  intros Hsize Hnet Hjson header pages.
  destruct (fetchResults_resolved props net page w response data Hnet Hjson)
    as (w' & Hrun & _ & _ & Hpages & _).
  assert (Hp : pages =
               JS.Math_ceil_div (JS.parseInt (JS.or_default header "0"))
                 (pagePerRecord props)).
  { unfold pages. rewrite Hrun. exact Hpages. }
  assert (Hparsed : forall h n, header = Some h -> JS.parseInt h = JS.Int n ->
            pages = JS.Int (- (- n / pagePerRecord props))).
  { intros h n Hh Hn. rewrite Hp, Hh.
    destruct h as [|c r]; [discriminate Hn|].
    simpl JS.or_default. rewrite Hn. unfold JS.Math_ceil_div.
    destruct (Z.eqb_spec (pagePerRecord props) 0); [lia|reflexivity]. }
  split; [|split].
  - intros Hnone. rewrite Hp, Hnone. simpl.
    destruct (Z.eqb_spec (pagePerRecord props) 0); [lia|reflexivity].
  - intros h n Hh Hn. eexists. split; [exact (Hparsed h n Hh Hn)|].
    pose proof (Z.div_mod (- n) (pagePerRecord props)).
    pose proof (Z.mod_pos_bound (- n) (pagePerRecord props) Hsize).
    nia.
  - intros Hten h n k Hh Hn Hin. rewrite (Hparsed h n Hh Hn), Hten.
    simpl in Hin.
    destruct Hin as [H|[H|[H|[H|[]]]]]; inversion H; subst; reflexivity.
Qed.

(** C9. With the filter capability enabled, whatever has been typed in the
    two filter inputs, [applyFilter] leaves [currentPage] at 1 and sends
    one request, for page 1; its URL is the endpoint followed by the page
    number and the page size, and the filter texts are still in the state,
    not in the URL. *)
Theorem applyFilter_refetches_first_page (title body : string)
    (w : World Value) :
  isFilter props = true ->
  let typed :=
    after (fun _ => setBodyFilter body) (after (fun _ => setTitleFilter title) w) in
  let w' := after (fun _ => applyFilter props net) typed in
  currentPage (state w') = JS.Int 1
  /\ requests (trace w') =
       requests (trace w)
       ++ [(apiEndpoint props ++ "?_page=1&_limit="
            ++ JS.number_to_string (JS.Int (pagePerRecord props)))%string]
  /\ titleFilter (state w') = title
  /\ bodyFilter (state w') = body.
Proof.
  intros Hflag typed w'.
  unfold w', after, dispatch, applyFilter. rewrite Hflag.
  unfold bind, setCurrentPage, modify. cbn [negb].
  match goal with
  | |- context [fetchResults props net ?p ?x] =>
      destruct (fetchResults_frame props net p x)
        as (w2 & Hrun & _ & Hpage & Htitle & Hbody & _ & _ & Hreq)
  end.
  rewrite Hrun. cbn [snd].
  rewrite Hpage, Htitle, Hbody, Hreq.
  repeat split.
Qed.

End FetchClaims.

(** ** Sorting by a column *)

Section SortClaims.

Context {Value : Type}.
Variable undefined : Value.
Variable lt : Value -> Value -> bool.
Variable props : EnhancedPostTableProps.

Lemma is_sort_column_true (c : option string) (column : string) :
  is_sort_column c column = true <-> c = Some column.
Proof.
  destruct c as [c'|]; simpl.
  - rewrite String.eqb_eq. split; congruence.
  - split; discriminate.
Qed.

(** With sorting enabled, the records after a click are the records before
    it, sorted for the direction held in the state before the click. *)
Lemma handleSort_results (w : World Value) (column : string) :
  isSort props = true ->
  results
    (state (after (fun render => handleSort undefined lt props render column) w))
  = JS.sort (compare_by undefined lt (sortDirection (state w)) column)
      (results (state w)).
Proof.
  intros Hflag. unfold after, dispatch, handleSort. rewrite Hflag.
  cbn [negb].
  destruct (is_sort_column (sortColumn (state w)) column); reflexivity.
Qed.

(** X26. When [<] is a strict weak order on the values of the column, the
    click leaves the records in the order of the direction the state held
    before it: ascending, no record is followed by one with a lesser value;
    descending, none is followed by one with a greater value. *)
Lemma handleSort_orders (w : World Value) (column : string) :
  (forall a b, lt a b = true -> lt b a = false) ->
  (forall a b c, lt b a = false -> lt c b = false -> lt c a = false) ->
  isSort props = true ->
  StronglySorted
    (fun a b =>
       match sortDirection (state w) with
       | asc => lt (JS.get undefined b column) (JS.get undefined a column)
       | desc => lt (JS.get undefined a column) (JS.get undefined b column)
       end = false)
    (results
       (state
          (after (fun render => handleSort undefined lt props render column) w))).
Proof.
  intros Hasym Hneg Hflag. rewrite handleSort_results by exact Hflag.
  set (cmp := compare_by undefined lt (sortDirection (state w)) column).
  assert (Hle : forall a b,
            cmp a b <= 0 <->
            match sortDirection (state w) with
            | asc => lt (JS.get undefined b column) (JS.get undefined a column)
            | desc => lt (JS.get undefined a column) (JS.get undefined b column)
            end = false).
  { intros a b. unfold cmp, compare_by.
    destruct (sortDirection (state w));
      destruct (lt (JS.get undefined a column) (JS.get undefined b column))
        eqn:Hab;
      destruct (lt (JS.get undefined b column) (JS.get undefined a column))
        eqn:Hba;
      try (apply Hasym in Hab; congruence);
      split; intros; (lia || congruence). }
  apply (StronglySorted_weaken (fun a b => cmp a b <= 0));
    [intros a b; apply Hle|].
  apply sort_sorted.
  - intros a b Hgt. apply Hle.
    assert (Hnot : ~ cmp a b <= 0) by lia. rewrite Hle in Hnot.
    destruct (sortDirection (state w)).
    + apply Hasym. now destruct (lt _ _).
    + apply Hasym. now destruct (lt _ _).
  - intros a b c Hab Hbc. apply Hle. apply Hle in Hab. apply Hle in Hbc.
    destruct (sortDirection (state w)); eauto.
Qed.

(** C5, amended.  With the sort capability enabled: a click on the column
    that is the active sort column flips the direction held in the state
    and keeps the column; a click on any other column makes it the active
    sort column and sets the direction to [asc], whatever it was. *)
Theorem handleSort_toggles (w : World Value) (column : string) :
  isSort props = true ->
  let s := state w in
  let s' :=
    state (after (fun render => handleSort undefined lt props render column) w) in
  sortColumn s' = Some column
  /\ (sortColumn s = Some column ->
      sortDirection s' = match sortDirection s with asc => desc | desc => asc end)
  /\ (sortColumn s <> Some column -> sortDirection s' = asc).
Proof.
  intros Hflag s s'. unfold s', after, dispatch, handleSort. rewrite Hflag.
  cbn [negb].
  destruct (is_sort_column (sortColumn (state w)) column) eqn:Hactive.
  - apply is_sort_column_true in Hactive. fold s in Hactive.
    simpl. repeat split; auto. intros Hother. contradiction.
  - simpl. repeat split; auto. intros Hsame.
    apply is_sort_column_true in Hsame. fold s in Hsame. unfold s in Hsame.
    congruence.
Qed.

(** C10. With the sort capability enabled, a click on a column header
    returns normally and leaves a permutation of the records; the columns,
    the page number, the page count and the two filter texts are what they
    were, and nothing is added to the trace: no request is sent. *)
Theorem handleSort_permutes (w : World Value) (column : string) :
  isSort props = true ->
  exists w',
    dispatch (fun render => handleSort undefined lt props render column) w
    = (Normal tt, w')
    /\ Permutation (results (state w)) (results (state w'))
    /\ columns (state w') = columns (state w)
    /\ currentPage (state w') = currentPage (state w)
    /\ totalPages (state w') = totalPages (state w)
    /\ titleFilter (state w') = titleFilter (state w)
    /\ bodyFilter (state w') = bodyFilter (state w)
    /\ trace w' = trace w.
Proof.
  intros Hflag. unfold dispatch, handleSort. rewrite Hflag. cbn [negb].
  destruct (is_sort_column (sortColumn (state w)) column);
    (eexists; split; [reflexivity|]; simpl; repeat split; apply sort_perm).
Qed.

End SortClaims.

(** C1. On a freshly fetched page with ids 3, 1, 2 and no active sort, the
    first click on the [id] header leaves the records in ascending order.
    The second click sets the direction in the state to [desc], but the
    comparator still reads [asc] from the closure: the records are in
    ascending order again, not descending.  Only the third click, which
    sets the direction back to [asc], leaves them descending. *)
Theorem second_click_sorts_ascending_again :
  let once := Sample.click_header "id" Sample.fetched in
  let twice := Sample.click_header "id" once in
  let thrice := Sample.click_header "id" twice in
  (sortColumn (state Sample.fetched) = None
   /\ Sample.ids Sample.fetched = [Some 3; Some 1; Some 2])
  /\ (sortDirection (state once) = asc
      /\ Sample.ids once = [Some 1; Some 2; Some 3])
  /\ (sortDirection (state twice) = desc
      /\ Sample.ids twice = [Some 1; Some 2; Some 3])
  /\ (sortDirection (state thrice) = asc
      /\ Sample.ids thrice = [Some 3; Some 2; Some 1]).
Proof. repeat split. Qed.

(** C5 as stated fails when sorting is switched off: the click changes
    nothing, and the clicked column does not become the sort column. *)
Lemma handleSort_disabled_keeps_sort_state :
  let w' :=
    after
      (fun render =>
         handleSort Sample.undefined Sample.lt Sample.locked render "id")
      Sample.fetched in
  sortColumn (state Sample.fetched) = None
  /\ sortColumn (state w') = None
  /\ sortColumn (state w') <> Some "id".
Proof. repeat split. discriminate. Qed.

(** ** Reordering the columns *)

Section SpliceFacts.

Context {A : Type}.

Lemma splice_in_range (l items : list A) (start count : Z) :
  0 <= start <= Z.of_nat (List.length l) ->
  0 <= count <= Z.of_nat (List.length l) - start ->
  JS.splice l start count items =
    (firstn (Z.to_nat count) (skipn (Z.to_nat start) l),
     firstn (Z.to_nat start) l ++ items
     ++ skipn (Z.to_nat start + Z.to_nat count) l).
Proof.
  intros Hstart Hcount. unfold JS.splice.
  destruct (Z.ltb_spec start 0) as [Hneg|_]; [lia|].
  rewrite (Z.min_l start) by lia.
  rewrite (Z.max_l count) by lia.
  rewrite (Z.min_l count) by lia.
  reflexivity.
Qed.

(** Position [i] after the element at [s] has been taken out. *)
Lemma nth_error_removed (l : list A) (s i : nat) :
  (s < List.length l)%nat ->
  nth_error (firstn s l ++ skipn (S s) l) i =
    nth_error l (if (i <? s)%nat then i else S i).
Proof.
  intros Hs.
  assert (Hlen : List.length (firstn s l) = s)
    by (rewrite length_firstn; lia).
  destruct (Nat.ltb_spec i s) as [Hlt|Hge].
  - rewrite nth_error_app1 by lia.
    rewrite nth_error_firstn.
    destruct (Nat.ltb_spec i s); [reflexivity|lia].
  - rewrite nth_error_app2 by lia.
    rewrite nth_error_skipn, Hlen. f_equal. lia.
Qed.

(** Position [i] after [x] has been put in at [d]. *)
Lemma nth_error_inserted (l : list A) (x : A) (d i : nat) :
  (d <= List.length l)%nat ->
  nth_error (firstn d l ++ [x] ++ skipn d l) i =
    if (i <? d)%nat then nth_error l i
    else if (i =? d)%nat then Some x
    else nth_error l (pred i).
Proof.
  intros Hd.
  assert (Hlen : List.length (firstn d l) = d)
    by (rewrite length_firstn; lia).
  destruct (Nat.ltb_spec i d) as [Hlt|Hge].
  - rewrite nth_error_app1 by lia.
    rewrite nth_error_firstn.
    destruct (Nat.ltb_spec i d); [reflexivity|lia].
  - rewrite nth_error_app2 by lia. rewrite Hlen.
    destruct (Nat.eqb_spec i d) as [->|Hne].
    + now rewrite Nat.sub_diag.
    + destruct (i - d)%nat as [|k] eqn:Hk; [lia|].
      simpl. rewrite nth_error_skipn. f_equal. lia.
Qed.

(** Taking the element at [src] out and putting it back in at [dst], with
    both indices inside the list, is the move [origin] describes. *)
Lemma splice_moves (undefined : A) (l : list A) (src dst : Z) :
  0 <= src < Z.of_nat (List.length l) ->
  0 <= dst < Z.of_nat (List.length l) ->
  let '(removed, l1) := JS.splice l src 1 [] in
  let '(_, l2) := JS.splice l1 dst 0 [JS.first_or undefined removed] in
  List.length l2 = List.length l
  /\ forall i, (i < List.length l)%nat ->
       nth_error l2 i = nth_error l (origin (Z.to_nat src) (Z.to_nat dst) i).
Proof.
  intros Hsrc Hdst.
  rewrite splice_in_range by lia.
  set (s := Z.to_nat src). set (d := Z.to_nat dst).
  assert (Hs : (s < List.length l)%nat) by lia.
  assert (Hd : (d < List.length l)%nat) by lia.
  change (Z.to_nat 1) with 1%nat. rewrite Nat.add_1_r. cbn [app].
  assert (Hlen1 : List.length (firstn s l ++ skipn (S s) l)
                  = pred (List.length l)).
  { rewrite length_app, length_firstn, length_skipn. lia. }
  rewrite splice_in_range by (rewrite Hlen1; lia).
  fold d. change (Z.to_nat 0) with 0%nat. rewrite Nat.add_0_r.
  destruct (nth_error l s) as [x|] eqn:Hx;
    [|apply nth_error_None in Hx; lia].
  assert (Hfirst : JS.first_or undefined (firstn 1 (skipn s l)) = x).
  { pose proof (nth_error_skipn s l 0) as H0.
    rewrite Nat.add_0_r, Hx in H0.
    destruct (skipn s l) as [|y r]; [discriminate|].
    simpl in H0. injection H0 as ->. reflexivity. }
  rewrite Hfirst. split.
  - rewrite !length_app, length_firstn, length_skipn, Hlen1. simpl. lia.
  - intros i Hi.
    rewrite nth_error_inserted by (rewrite Hlen1; lia).
    unfold origin.
    destruct (Nat.ltb_spec i d) as [Hid|Hid].
    + rewrite nth_error_removed by exact Hs.
      destruct (Nat.eqb_spec i d); [lia|].
      destruct (Nat.ltb_spec i s), (Nat.leb_spec s i), (Nat.ltb_spec d i),
        (Nat.leb_spec i s); cbn [andb]; try lia; reflexivity.
    + destruct (Nat.eqb_spec i d) as [->|Hne]; [now rewrite Hx|].
      rewrite nth_error_removed by exact Hs.
      destruct (Nat.ltb_spec (pred i) s), (Nat.leb_spec s i),
        (Nat.ltb_spec d i), (Nat.leb_spec i s), (Nat.ltb_spec i d);
        cbn [andb]; try lia; f_equal; lia.
Qed.

End SpliceFacts.

Section ReorderClaims.

Context {Value : Type}.
Variable props : EnhancedPostTableProps.

(** C6, amended.  A drop without a destination, or with the column-toggle
    capability disabled, changes nothing.  Otherwise, when both indices
    are inside the column list, the column at the source index ends at the
    destination index, the columns between the two shift by one place
    towards the source, and all others stay where they are. *)
Theorem onDragEnd_moves_column (w : World Value) (result : DropResult) :
  let cols := columns (state w) in
  let w' := after (fun render => onDragEnd props render result) w in
  (destination result = None \/ columnToogle props = false -> w' = w)
  /\ (forall dest,
        destination result = Some dest ->
        columnToogle props = true ->
        0 <= index (source result) < Z.of_nat (List.length cols) ->
        0 <= index dest < Z.of_nat (List.length cols) ->
        List.length (columns (state w')) = List.length cols
        /\ forall i, (i < List.length cols)%nat ->
             nth_error (columns (state w')) i =
               nth_error cols
                 (origin (Z.to_nat (index (source result)))
                    (Z.to_nat (index dest)) i)).
Proof.
  intros cols w'. unfold w', after, dispatch, onDragEnd. split.
  - intros [Hnone|Hoff].
    + rewrite Hnone. now destruct w.
    + rewrite Hoff. destruct (destination result); now destruct w.
  - intros dest Hdest Hon Hsrc Hdst. rewrite Hdest, Hon. cbn [negb].
    pose proof (splice_moves None cols (index (source result)) (index dest)
                  Hsrc Hdst) as Hmove.
    fold cols.
    destruct (JS.splice cols (index (source result)) 1 []) as [removed l1].
    destruct (JS.splice l1 (index dest) 0 [JS.first_or None removed])
      as [ignored l2].
    exact Hmove.
Qed.

End ReorderClaims.

(** C6 as stated fails for indices outside the list.  With columns a, b, c:
    a destination index of 5 moves the first column to the end, and a
    source index of 7 takes nothing out and puts [undefined] in. *)
Lemma onDragEnd_out_of_bounds_changes_columns :
  let w := Sample.with_columns Sample.three_columns in
  let moved (from to : Z) :=
    columns
      (state (after (fun render => onDragEnd Sample.props render
                                     (Sample.drop from to)) w)) in
  (moved 0 5 =
     [Some (column_of_key "b"); Some (column_of_key "c");
      Some (column_of_key "a")]
   /\ moved 0 5 <> columns (state w))
  /\ (moved 7 1 =
        [Some (column_of_key "a"); None; Some (column_of_key "b");
         Some (column_of_key "c")]
      /\ moved 7 1 <> columns (state w)).
Proof. repeat split; discriminate. Qed.

(** ** Capability gating *)

Section GatingClaims.

Context {Value : Type}.
Variable undefined : Value.
Variable lt : Value -> Value -> bool.
Variable props : EnhancedPostTableProps.
Variable net : Network Value.

(** C8. An action whose governing capability flag is false (sort with
    [isSort], toggling a column's visibility or reordering with
    [columnToogle], applying the filter with [isFilter]) returns normally
    and leaves the whole world as it was: records, columns, sort state,
    filter texts, pagination state, loading flag and trace. *)
Theorem disabled_action_is_noop (a : Action) (w : World Value) :
  governing_flag props a = false ->
  dispatch (perform undefined lt props net a) w = (Normal tt, w).
Proof.
  intros Hflag. unfold dispatch.
  destruct a as [column|k|result|]; simpl in Hflag; simpl.
  - unfold handleSort. now rewrite Hflag.
  - unfold toggleColumnVisibility. now rewrite Hflag.
  - unfold onDragEnd. rewrite Hflag. now destruct (destination result).
  - unfold applyFilter. now rewrite Hflag.
Qed.

End GatingClaims.

(** ** Pagination *)

Section PaginationClaims.

Context {Value : Type}.

(** One button press from a page inside [[1, tp]] ends inside it, and the
    page count is not touched. *)
Lemma navigate_in_range (a : PageAction) (w : World Value) (p tp : Z) :
  currentPage (state w) = JS.Int p ->
  totalPages (state w) = JS.Int tp ->
  1 <= p <= tp ->
  exists p',
    currentPage (state (after (navigate a) w)) = JS.Int p'
    /\ totalPages (state (after (navigate a) w)) = JS.Int tp
    /\ 1 <= p' <= tp.
Proof.
  intros Hp Htp Hrange.
  destruct a; unfold after, dispatch, navigate, previous, next,
    setCurrentPage, modify; simpl; rewrite Hp, ?Htp; simpl.
  - destruct (Z.ltb_spec (p + -1) 1); eexists; repeat split;
      try eassumption; lia.
  - destruct (Z.ltb_spec tp (p + 1)); eexists; repeat split;
      try eassumption; lia.
Qed.

Lemma navigate_all_in_range (actions : list PageAction) :
  forall (w : World Value) (p tp : Z),
    currentPage (state w) = JS.Int p ->
    totalPages (state w) = JS.Int tp ->
    1 <= p <= tp ->
    in_page_range (currentPage (state (navigate_all actions w)))
      (totalPages (state (navigate_all actions w))).
Proof.
  induction actions as [|a r IH]; intros w p tp Hp Htp Hrange; simpl.
  - rewrite Hp, Htp. exact Hrange.
  - destruct (navigate_in_range a w p tp Hp Htp Hrange)
      as (p' & Hp' & Htp' & Hrange').
    exact (IH _ p' tp Hp' Htp' Hrange').
Qed.

(** C2, amended.  When there is at least one page, every sequence of
    presses of the previous-page and next-page buttons that starts on
    page 1 ends on a page inside [[1, totalPages]]. *)
Theorem navigation_stays_in_range (actions : list PageAction)
    (w : World Value) (tp : Z) :
  currentPage (state w) = JS.Int 1 ->
  totalPages (state w) = JS.Int tp ->
  1 <= tp ->
  in_page_range (currentPage (state (navigate_all actions w)))
    (totalPages (state (navigate_all actions w))).
Proof.
  intros Hp Htp Hsome.
  apply (navigate_all_in_range actions w 1 tp Hp Htp). lia.
Qed.

End PaginationClaims.

(** C2 as stated fails for [totalPages = 0]: on the table as mounted, page 1
    of 0, the next-page button is enabled and one press of it sets
    [currentPage] to 0, outside [[1, 0]]; page 1 itself is outside. *)
Lemma next_with_no_pages_leaves_range :
  let w := Sample.mounted in
  let w' := navigate_all [Next] w in
  (currentPage (state w) = JS.Int 1 /\ totalPages (state w) = JS.Int 0)
  /\ next_disabled (state w) = false
  /\ currentPage (state w') = JS.Int 0
  /\ ~ in_page_range (currentPage (state w')) (totalPages (state w')).
Proof. repeat split. simpl. lia. Qed.

(** C7 as stated fails for a header that [parseInt] cannot read: the
    fallback to ["0"] only replaces an absent or empty header, so the text
    [abc] is parsed to [NaN] and [totalPages] is [NaN], not 0. *)
Lemma unparseable_header_gives_NaN :
  let w' :=
    after (effect Sample.props (Sample.serving (Some "abc"))) Sample.mounted in
  JS.parseInt (JS.or_default (Some "abc") "0") = JS.NaN
  /\ totalPages (state w') = JS.NaN
  /\ totalPages (state w') <> JS.Int 0.
Proof. repeat split. discriminate. Qed.

(** ** The properties at work on the sample endpoint *)

Lemma navigation_stays_in_range_witness :
  let w := after (effect Sample.props (Sample.serving (Some "25"))) Sample.mounted in
  let w' := navigate_all [Next; Next; Next; Previous; Next; Next] w in
  (currentPage (state w) = JS.Int 1
   /\ totalPages (state w) = JS.Int 3 /\ 1 <= 3)
  /\ in_page_range (currentPage (state w')) (totalPages (state w')).
Proof.
  split.
  - repeat split. lia.
  - apply (navigation_stays_in_range
             [Next; Next; Next; Previous; Next; Next]
             (after (effect Sample.props (Sample.serving (Some "25")))
                Sample.mounted) 3); [reflexivity|reflexivity|lia].
Defined.

Lemma fetch_failure_is_absorbed_witness :
  fetch_fails Sample.unreachable (request_url Sample.props (JS.Int 2)) = true
  /\ exists w',
       fetchResults Sample.props Sample.unreachable (JS.Int 2) Sample.fetched
       = (Normal tt, w')
       /\ results (state w') = results (state Sample.fetched)
       /\ columns (state w') = columns (state Sample.fetched)
       /\ isLoading (state w') = false.
Proof.
  split.
  - reflexivity.
  - apply (fetch_failure_is_absorbed Sample.props Sample.unreachable
             (JS.Int 2) Sample.fetched).
    reflexivity.
Defined.

Lemma columns_after_fetch_witness :
  columns
    (state
       (snd (fetchResults Sample.props (Sample.serving (Some "3")) (JS.Int 1)
               Sample.mounted)))
  = [Some {| key := "userId"; label := "USERID"; visible := true |};
     Some {| key := "id"; label := "ID"; visible := true |}].
Proof.
  apply (columns_after_fetch Sample.props (Sample.serving (Some "3"))
           (JS.Int 1) Sample.mounted
           {| json := Some Sample.page;
              headers_get := fun name =>
                if String.eqb name "x-total-count" then Some "3" else None |}
           Sample.page); reflexivity.
Defined.

Lemma totalPages_after_fetch_witness :
  let pages :=
    totalPages
      (state
         (snd (fetchResults Sample.props (Sample.serving (Some "101"))
                 (JS.Int 1) Sample.mounted))) in
  0 < pagePerRecord Sample.props
  /\ (forall h n, Some "101" = Some h -> JS.parseInt h = JS.Int n ->
        exists k, pages = JS.Int k /\ 10 * (k - 1) < n <= 10 * k)
  /\ pages = JS.Int 11.
Proof.
  pose proof (totalPages_after_fetch Sample.props
                (Sample.serving (Some "101")) (JS.Int 1) Sample.mounted
                {| json := Some Sample.page;
                   headers_get := fun name =>
                     if String.eqb name "x-total-count" then Some "101"
                     else None |}
                Sample.page ltac:(simpl; lia) eq_refl eq_refl)
    as (_ & Hceil & Hten).
  split; [simpl; lia|]. split.
  - exact Hceil.
  - apply (Hten eq_refl "101" 101 11 eq_refl eq_refl).
    simpl. auto.
Defined.

Lemma applyFilter_refetches_first_page_witness :
  let typed :=
    after (fun _ => setBodyFilter "dolor")
      (after (fun _ => setTitleFilter "qui") Sample.fetched) in
  let w' :=
    after (fun _ => applyFilter Sample.props (Sample.serving (Some "3")))
      typed in
  isFilter Sample.props = true
  /\ currentPage (state w') = JS.Int 1
  /\ requests (trace w') =
       requests (trace Sample.fetched)
       ++ ["https://example.test/posts?_page=1&_limit=10"]
  /\ titleFilter (state w') = "qui"
  /\ bodyFilter (state w') = "dolor".
Proof.
  split.
  - reflexivity.
  - apply (applyFilter_refetches_first_page Sample.props
             (Sample.serving (Some "3")) "qui" "dolor" Sample.fetched).
    reflexivity.
Defined.

Lemma handleSort_toggles_witness :
  let w := Sample.click_header "id" Sample.fetched in
  let s' := state (Sample.click_header "id" w) in
  isSort Sample.props = true
  /\ sortColumn (state w) = Some "id"
  /\ sortColumn s' = Some "id"
  /\ sortDirection s' = desc.
Proof.
  pose proof (handleSort_toggles Sample.undefined Sample.lt Sample.props
                (Sample.click_header "id" Sample.fetched) "id" eq_refl)
    as (Hcolumn & Hflip & _).
  split; [reflexivity|]. split; [reflexivity|]. split.
  - exact Hcolumn.
  - exact (Hflip eq_refl).
Defined.

Lemma handleSort_permutes_witness :
  isSort Sample.props = true
  /\ exists w',
       dispatch
         (fun render =>
            handleSort Sample.undefined Sample.lt Sample.props render "id")
         Sample.fetched
       = (Normal tt, w')
       /\ Permutation (results (state Sample.fetched)) (results (state w'))
       /\ columns (state w') = columns (state Sample.fetched)
       /\ currentPage (state w') = currentPage (state Sample.fetched)
       /\ totalPages (state w') = totalPages (state Sample.fetched)
       /\ titleFilter (state w') = titleFilter (state Sample.fetched)
       /\ bodyFilter (state w') = bodyFilter (state Sample.fetched)
       /\ trace w' = trace Sample.fetched.
Proof.
  split.
  - reflexivity.
  - apply (handleSort_permutes Sample.undefined Sample.lt Sample.props
             Sample.fetched "id").
    reflexivity.
Defined.

Lemma onDragEnd_moves_column_witness :
  let w := Sample.with_columns Sample.three_columns in
  let w' :=
    after (fun render => onDragEnd Sample.props render (Sample.drop 0 2)) w in
  (columnToogle Sample.props = true /\ 0 <= 0 < 3 /\ 0 <= 2 < 3)
  /\ List.length (columns (state w')) = 3%nat
  /\ forall i, (i < 3)%nat ->
       nth_error (columns (state w')) i =
         nth_error Sample.three_columns (origin 0 2 i).
Proof.
  split.
  - repeat split; lia.
  - apply (proj2 (onDragEnd_moves_column Sample.props
                    (Sample.with_columns Sample.three_columns)
                    (Sample.drop 0 2))
             {| droppableId := "columns"; index := 2 |} eq_refl eq_refl);
      simpl; lia.
Defined.

Lemma disabled_action_is_noop_witness :
  governing_flag Sample.locked (Reorder (Sample.drop 0 2)) = false
  /\ dispatch
       (perform Sample.undefined Sample.lt Sample.locked Sample.unreachable
          (Reorder (Sample.drop 0 2)))
       (Sample.with_columns Sample.three_columns)
     = (Normal tt, Sample.with_columns Sample.three_columns).
Proof.
  split.
  - reflexivity.
  - apply (disabled_action_is_noop Sample.undefined Sample.lt Sample.locked
             Sample.unreachable (Reorder (Sample.drop 0 2))
             (Sample.with_columns Sample.three_columns)).
    reflexivity.
Defined.

(** * Further properties of the component *)

(** ** The pagination buttons *)

Section PaginationFacts.

Context {Value : Type}.

Lemma Math_min_int (a b : Z) :
  JS.Math_min (JS.Int a) (JS.Int b) = JS.Int (Z.min a b).
Proof.
  unfold JS.Math_min. simpl.
  destruct (Z.ltb_spec b a); f_equal; lia.
Qed.

Lemma Math_max_int (a b : Z) :
  JS.Math_max (JS.Int a) (JS.Int b) = JS.Int (Z.max a b).
Proof.
  unfold JS.Math_max. simpl.
  destruct (Z.ltb_spec a b); f_equal; lia.
Qed.

Lemma after_previous (w : World Value) (p : Z) :
  currentPage (state w) = JS.Int p ->
  currentPage (state (after (navigate Previous) w)) = JS.Int (Z.max (p - 1) 1).
Proof.
  intros Hp. unfold after, dispatch, navigate, previous, setCurrentPage, modify.
  simpl. rewrite Hp. unfold JS.sub. simpl JS.add. rewrite Math_max_int.
  f_equal.
Qed.

Lemma after_next (w : World Value) (p tp : Z) :
  currentPage (state w) = JS.Int p ->
  totalPages (state w) = JS.Int tp ->
  currentPage (state (after (navigate Next) w)) = JS.Int (Z.min (p + 1) tp).
Proof.
  intros Hp Htp. unfold after, dispatch, navigate, next, setCurrentPage, modify.
  simpl. rewrite Hp, Htp. simpl JS.add. apply Math_min_int.
Qed.

Lemma navigate_keeps_the_rest (a : PageAction) (w : World Value) :
  totalPages (state (after (navigate a) w)) = totalPages (state w)
  /\ isLoading (state (after (navigate a) w)) = isLoading (state w)
  /\ trace (after (navigate a) w) = trace w.
Proof. destruct a; repeat split. Qed.

(** X1. On integer page numbers and when no fetch is in flight, a
    pagination button is disabled exactly when pressing it would leave
    [currentPage] as it is: previous on page 1, next on the last page. *)
Theorem button_disabled_iff_press_is_idle (a : PageAction) (w : World Value)
    (p tp : Z) :
  currentPage (state w) = JS.Int p ->
  totalPages (state w) = JS.Int tp ->
  isLoading (state w) = false ->
  (match a with
   | Previous => previous_disabled (state w)
   | Next => next_disabled (state w)
   end = true
   <-> currentPage (state (after (navigate a) w)) = currentPage (state w)).
Proof.
  intros Hp Htp Hidle. destruct a.
  - rewrite (after_previous w p Hp). unfold previous_disabled.
    rewrite Hp, Hidle, orb_false_r. simpl. rewrite Z.eqb_eq.
    split; [intros ->; reflexivity|intros H; injection H; lia].
  - rewrite (after_next w p tp Hp Htp). unfold next_disabled.
    rewrite Hp, Htp, Hidle, orb_false_r. simpl. rewrite Z.eqb_eq.
    split; [intros ->; f_equal; lia|intros H; injection H; lia].
Qed.

(** X2. Strictly inside the range the two buttons undo each other: from a
    page below the last, next then previous comes back to it; from a page
    above the first, previous then next comes back to it. *)
Theorem next_and_previous_are_inverse (w : World Value) (p tp : Z) :
  currentPage (state w) = JS.Int p ->
  totalPages (state w) = JS.Int tp ->
  (1 <= p < tp ->
   currentPage (state (navigate_all [Next; Previous] w)) = JS.Int p)
  /\ (1 < p <= tp ->
      currentPage (state (navigate_all [Previous; Next] w)) = JS.Int p).
Proof.
  intros Hp Htp. cbn [navigate_all]. split; intros Hrange.
  - rewrite (after_previous _ _ (after_next w p tp Hp Htp)). f_equal. lia.
  - pose proof (after_previous w p Hp) as Hprev.
    rewrite (after_next _ _ tp Hprev);
      [f_equal; lia|].
    now rewrite (proj1 (navigate_keeps_the_rest Previous w)).
Qed.

(** X3. When [totalPages] is [NaN], one press of next makes [currentPage]
    [NaN], and no sequence of presses of the two buttons brings a number
    back; the next button is then enabled whenever no fetch is in
    flight. *)
Theorem NaN_page_count_poisons_navigation (actions : list PageAction)
    (w : World Value) :
  totalPages (state w) = JS.NaN ->
  let w' := navigate_all (Next :: actions) w in
  currentPage (state w') = JS.NaN
  /\ next_disabled (state w') = isLoading (state w).
Proof.
  intros Htp.
  assert (Hstuck : forall l (v : World Value),
            currentPage (state v) = JS.NaN ->
            currentPage (state (navigate_all l v)) = JS.NaN
            /\ isLoading (state (navigate_all l v)) = isLoading (state v)).
  { induction l as [|a r IH]; intros v Hv; cbn [navigate_all]; [now split|].
    destruct (IH (after (navigate a) v)) as [Hpage Hload].
    - destruct a; unfold after, dispatch, navigate, previous, next,
        setCurrentPage, modify; simpl; now rewrite Hv.
    - split; [exact Hpage|].
      rewrite Hload. apply (navigate_keeps_the_rest a v). }
  intros w'. unfold w'. cbn [navigate_all].
  destruct (Hstuck actions (after (navigate Next) w)) as [Hpage Hload].
  - unfold after, dispatch, navigate, next, setCurrentPage, modify. simpl.
    rewrite Htp. now destruct (JS.add _ _).
  - split; [exact Hpage|].
    unfold next_disabled. rewrite Hpage, Hload. reflexivity.
Qed.

End PaginationFacts.

(** ** The strip of numbered page buttons *)

Section StripFacts.

Context {Value : Type}.

Lemma In_drawn {A : Type} (l : list (option A)) (x : A) :
  In x (drawn l) <-> In (Some x) l.
Proof.
  induction l as [|[y|] r IH]; simpl.
  - tauto.
  - rewrite IH. split; intros [H|H]; auto; left; congruence.
  - rewrite IH. split; [auto|intros [H|H]; [discriminate|auto]].
Qed.

Lemma drawn_length {A : Type} (l : list (option A)) :
  (List.length (drawn l) <= List.length l)%nat.
Proof.
  induction l as [|[y|] r IH]; simpl; lia.
Qed.

Lemma In_indices (k i : Z) :
  In i (map Z.of_nat (seq 0 (Z.to_nat k))) <-> 0 <= i < k.
Proof.
  rewrite in_map_iff. split.
  - intros (n & <- & Hn). apply in_seq in Hn. lia.
  - intros Hi. exists (Z.to_nat i). split; [lia|]. apply in_seq. lia.
Qed.

(** The button drawn for index [i] on integer pages. *)
Lemma page_button_int (render : State Value) (p tp i : Z) :
  currentPage render = JS.Int p ->
  totalPages render = JS.Int tp ->
  page_button render i =
    if (0 <? p - 2 + i) && negb (tp <? p - 2 + i)
    then Some {| pageNumber := JS.Int (p - 2 + i);
                 current := p =? p - 2 + i;
                 disabled := isLoading render |}
    else None.
Proof.
  intros Hp Htp. unfold page_button. rewrite Hp, Htp. reflexivity.
Qed.

Lemma page_buttons_int (render : State Value) (p tp : Z) :
  currentPage render = JS.Int p ->
  totalPages render = JS.Int tp ->
  0 <= tp ->
  page_buttons render =
    Shown (drawn (map (page_button render)
                    (map Z.of_nat (seq 0 (Z.to_nat (Z.min 5 tp)))))).
Proof.
  intros Hp Htp Hsome. unfold page_buttons. rewrite Htp, Math_min_int.
  unfold Array_indices.
  destruct (Z.ltb_spec (Z.min 5 tp) 0); [lia|].
  destruct (Z.ltb_spec 4294967295 (Z.min 5 tp)); [lia|].
  reflexivity.
Qed.

(** X4. With integer [currentPage = p] and [totalPages = tp >= 0], the strip
    holds at most five buttons; page [n] has a button exactly when it is a
    page of the table and lies in the window of [min 5 tp] pages that
    starts two before the current one; the button marked as current is the
    one for [p], and every button is disabled while a fetch is in flight. *)
Theorem page_buttons_window (render : State Value) (p tp : Z) :
  currentPage render = JS.Int p ->
  totalPages render = JS.Int tp ->
  0 <= tp ->
  exists buttons,
    page_buttons render = Shown buttons
    /\ (List.length buttons <= 5)%nat
    /\ (forall n, In (JS.Int n) (map pageNumber buttons)
                  <-> 1 <= n <= tp /\ p - 2 <= n < p - 2 + Z.min 5 tp)
    /\ (forall b, In b buttons ->
          exists n, pageNumber b = JS.Int n
                    /\ current b = (p =? n)
                    /\ disabled b = isLoading render).
Proof.
  intros Hp Htp Hsome. eexists. split; [apply (page_buttons_int render p tp Hp Htp Hsome)|].
  split; [|split].
  - eapply Nat.le_trans; [apply drawn_length|].
    rewrite !length_map, length_seq. lia.
  - intros n. rewrite in_map_iff. split.
    + intros (b & Hn & Hb). apply In_drawn, in_map_iff in Hb.
      destruct Hb as (i & Hi & Hin). apply In_indices in Hin.
      rewrite (page_button_int render p tp i Hp Htp) in Hi.
      destruct (Z.ltb_spec 0 (p - 2 + i)), (Z.ltb_spec tp (p - 2 + i));
        try discriminate.
      injection Hi as <-. simpl in Hn. injection Hn as <-. lia.
    + intros [Hpage Hwin].
      exists {| pageNumber := JS.Int n; current := p =? n;
                disabled := isLoading render |}.
      split; [reflexivity|]. apply In_drawn, in_map_iff.
      exists (n - (p - 2)). split; [|apply In_indices; lia].
      rewrite (page_button_int render p tp _ Hp Htp).
      replace (p - 2 + (n - (p - 2))) with n by lia.
      destruct (Z.ltb_spec 0 n), (Z.ltb_spec tp n); try lia. reflexivity.
  - intros b Hb. apply In_drawn, in_map_iff in Hb.
    destruct Hb as (i & Hi & _).
    rewrite (page_button_int render p tp i Hp Htp) in Hi.
    destruct ((0 <? p - 2 + i) && negb (tp <? p - 2 + i)); [|discriminate].
    injection Hi as <-. eexists. repeat split.
Qed.

(** X5. On a page of the table, the strip has a button for the current page
    exactly when the table has at least three pages: with one or two pages
    the window ends before it reaches the current page. *)
Theorem current_page_button_needs_three_pages (render : State Value)
    (p tp : Z) :
  currentPage render = JS.Int p ->
  totalPages render = JS.Int tp ->
  1 <= p <= tp ->
  exists buttons,
    page_buttons render = Shown buttons
    /\ ((exists b, In b buttons /\ current b = true) <-> 3 <= tp).
Proof.
  intros Hp Htp Hrange.
  eexists. split; [apply (page_buttons_int render p tp Hp Htp); lia|].
  split.
  - intros (b & Hb & Hcur). apply In_drawn, in_map_iff in Hb.
    destruct Hb as (i & Hi & Hin). apply In_indices in Hin.
    rewrite (page_button_int render p tp i Hp Htp) in Hi.
    destruct ((0 <? p - 2 + i) && negb (tp <? p - 2 + i)); [|discriminate].
    injection Hi as <-. simpl in Hcur. apply Z.eqb_eq in Hcur. lia.
  - intros Hthree.
    exists {| pageNumber := JS.Int p; current := true;
              disabled := isLoading render |}.
    split; [|reflexivity]. apply In_drawn, in_map_iff.
    exists 2. split; [|apply In_indices; lia].
    rewrite (page_button_int render p tp 2 Hp Htp).
    replace (p - 2 + 2) with p by lia. rewrite Z.eqb_refl.
    destruct (Z.ltb_spec 0 p), (Z.ltb_spec tp p); try lia. reflexivity.
Qed.

(** The numbered buttons can be drawn exactly when [0 <= totalPages]. *)
Lemma page_buttons_crash_iff (render : State Value) :
  (exists buttons, page_buttons render = Shown buttons)
  <-> number_leb (JS.Int 0) (totalPages render) = true.
Proof.
  unfold page_buttons.
  destruct (totalPages render) as [| | |tp].
  - simpl. split; [intros [b H]; discriminate|discriminate].
  - simpl. split; [intros [b H]; discriminate|discriminate].
  - simpl. split; [reflexivity|]. intros _. eexists. reflexivity.
  - rewrite Math_min_int. unfold Array_indices, number_leb.
    simpl JS.number_ltb.
    destruct (Z.ltb_spec (Z.min 5 tp) 0), (Z.ltb_spec 4294967295 (Z.min 5 tp)),
      (Z.ltb_spec tp 0); simpl; try lia;
      (split; [intros [b Hb]; (discriminate || reflexivity)
              |intros Hle; (discriminate || (eexists; reflexivity))]).
Qed.

(** X6. The pagination strip stops the render exactly when pagination is
    enabled and [totalPages] is [NaN] or negative: then
    [Array(Math.min(5, totalPages))] throws.  With pagination disabled, or
    with [0 <= totalPages], the render goes through. *)
Theorem pagination_crash_iff (props : EnhancedPostTableProps)
    (render : State Value) :
  pagination props render = Crashed InvalidArrayLength
  <-> isPagination props = true
      /\ number_leb (JS.Int 0) (totalPages render) = false.
Proof.
  unfold pagination. pose proof (page_buttons_crash_iff render) as Hiff.
  destruct (isPagination props).
  - destruct (page_buttons render) as [buttons|e] eqn:Hstrip.
    + split; [discriminate|]. intros [_ Hneg].
      rewrite (proj1 Hiff) in Hneg; [discriminate|]. now exists buttons.
    + split.
      * intros _. split; [reflexivity|].
        destruct (number_leb (JS.Int 0) (totalPages render)); [|reflexivity].
        destruct (proj2 Hiff eq_refl) as [buttons Hb]. discriminate.
      * intros _. f_equal.
        unfold page_buttons in Hstrip.
        destruct (JS.Math_min (JS.Int 5) (totalPages render)) as [| | |k];
          simpl in Hstrip; try (injection Hstrip as <-; reflexivity).
        destruct ((k <? 0) || (4294967295 <? k));
          [injection Hstrip as <-; reflexivity|discriminate].
  - split; [discriminate|]. intros [H _]. discriminate.
Qed.

(** X7. On integer pages, a click on any numbered button that is drawn
    leaves [currentPage] inside [[1, totalPages]]. *)
Theorem drawn_button_goes_to_a_page (w : World Value) (p tp : Z)
    (buttons : list PageButton) (b : PageButton) :
  currentPage (state w) = JS.Int p ->
  totalPages (state w) = JS.Int tp ->
  page_buttons (state w) = Shown buttons ->
  In b buttons ->
  let w' := after (fun _ => goTo (pageNumber b)) w in
  currentPage (state w') = pageNumber b
  /\ in_page_range (currentPage (state w')) (totalPages (state w')).
Proof.
  intros Hp Htp Hshown Hb w'. split; [reflexivity|].
  unfold w', after, dispatch, goTo, setCurrentPage, modify. simpl.
  rewrite Htp.
  unfold page_buttons in Hshown.
  destruct (Array_indices _) as [indices|e]; [|discriminate].
  injection Hshown as <-. apply In_drawn, in_map_iff in Hb.
  destruct Hb as (i & Hi & _).
  rewrite (page_button_int (state w) p tp i Hp Htp) in Hi.
  destruct (Z.ltb_spec 0 (p - 2 + i)), (Z.ltb_spec tp (p - 2 + i));
    try discriminate.
  injection Hi as <-. simpl. lia.
Qed.

End StripFacts.

(** ** Showing and hiding columns *)

Section ToggleFacts.

Context {Value : Type}.
Variable props : EnhancedPostTableProps.

Lemma all_defined (cols : list (option Column)) :
  ~ In None cols -> exists cs, cols = map Some cs.
Proof.
  induction cols as [|[c|] r IH]; intros Hnone.
  - now exists [].
  - destruct IH as [cs ->]; [intros H; apply Hnone; now right|].
    now exists (c :: cs).
  - exfalso. apply Hnone. now left.
Qed.

Lemma not_In_None_map_Some {A : Type} (l : list A) : ~ In None (map Some l).
Proof.
  induction l as [|x r IH]; simpl; [tauto|].
  intros [H|H]; [discriminate|auto].
Qed.

Lemma map_throwing_undefined (k : string) (cols : list (option Column)) :
  In None cols -> map_throwing (toggle_one k) cols = None.
Proof.
  induction cols as [|[c|] r IH]; simpl; intros Hin.
  - contradiction.
  - destruct Hin as [H|H]; [discriminate|]. now rewrite IH.
  - reflexivity.
Qed.

Lemma map_throwing_defined (k : string) (cs : list Column) :
  map_throwing (toggle_one k) (map Some cs) =
    Some (map (fun c =>
                 if String.eqb (key c) k then
                   Some {| key := key c; label := label c;
                           visible := negb (visible c) |}
                 else Some c) cs).
Proof.
  induction cs as [|c r IH]; simpl; [reflexivity|].
  now rewrite IH.
Qed.

(** X8. With the column-toggle capability enabled, [toggleColumnVisibility]
    throws exactly when the column array holds an [undefined] entry, and
    then it has changed nothing. *)
Theorem toggle_throws_iff_undefined_column (w : World Value) (k : string) :
  columnToogle props = true ->
  (In None (columns (state w)) ->
   dispatch (fun render => toggleColumnVisibility props render k) w
   = (Throw TypeError, w))
  /\ (~ In None (columns (state w)) ->
      exists w',
        dispatch (fun render => toggleColumnVisibility props render k) w
        = (Normal tt, w')).
Proof.
  intros Hon. unfold dispatch, toggleColumnVisibility. rewrite Hon.
  cbn [negb]. split.
  - intros Hin. now rewrite (map_throwing_undefined k _ Hin).
  - intros Hnone. destruct (all_defined _ Hnone) as [cs ->].
    rewrite map_throwing_defined. eexists. reflexivity.
Qed.

(** X9. With the capability enabled and every column defined, toggling key
    [k] keeps the number, order, keys and labels of the columns, negates
    [visible] on the columns whose key is [k] and on no other, and leaves
    the rest of the state and the trace alone. *)
Theorem toggle_flips_only_that_key (w : World Value) (k : string)
    (cs : list Column) :
  columnToogle props = true ->
  columns (state w) = map Some cs ->
  exists cs',
    columns (state (after (fun render => toggleColumnVisibility props render k) w))
    = map Some cs'
    /\ Forall2
         (fun c c' =>
            key c' = key c /\ label c' = label c
            /\ visible c' =
                 if String.eqb (key c) k then negb (visible c) else visible c)
         cs cs'
    /\ results (state (after (fun render => toggleColumnVisibility props render k) w))
       = results (state w)
    /\ sortColumn (state (after (fun render => toggleColumnVisibility props render k) w))
       = sortColumn (state w)
    /\ currentPage (state (after (fun render => toggleColumnVisibility props render k) w))
       = currentPage (state w)
    /\ trace (after (fun render => toggleColumnVisibility props render k) w)
       = trace w.
Proof.
  intros Hon Hcols. unfold after, dispatch, toggleColumnVisibility.
  rewrite Hon, Hcols, map_throwing_defined. cbn [negb].
  exists (map (fun c =>
                 if String.eqb (key c) k then
                   {| key := key c; label := label c;
                      visible := negb (visible c) |}
                 else c) cs).
  simpl. split; [|split; [|repeat split]].
  - rewrite map_map. apply map_ext. intros c.
    now destruct (String.eqb (key c) k).
  - clear Hcols. induction cs as [|c r IH]; simpl; constructor; [|exact IH].
    destruct (String.eqb (key c) k) eqn:Hk; simpl; rewrite ?Hk; auto.
Qed.

(** X10. With the capability enabled and every column defined, toggling the
    same key twice gives back the column list. *)
Theorem toggle_twice_restores (w : World Value) (k : string) :
  columnToogle props = true ->
  ~ In None (columns (state w)) ->
  columns
    (state
       (after (fun render => toggleColumnVisibility props render k)
          (after (fun render => toggleColumnVisibility props render k) w)))
  = columns (state w).
Proof.
  intros Hon Hnone. destruct (all_defined _ Hnone) as [cs Hcols].
  set (flip := fun c =>
                 if String.eqb (key c) k then
                   {| key := key c; label := label c;
                      visible := negb (visible c) |}
                 else c).
  assert (Hform : forall l,
            map (fun c =>
                   if String.eqb (key c) k then
                     Some {| key := key c; label := label c;
                             visible := negb (visible c) |}
                   else Some c) l
            = map Some (map flip l)).
  { intros l. rewrite map_map. apply map_ext. intros c. unfold flip.
    now destruct (String.eqb (key c) k). }
  unfold after, dispatch, toggleColumnVisibility.
  rewrite Hon, Hcols, map_throwing_defined. cbn [negb]. simpl.
  rewrite Hform, map_throwing_defined, Hform. simpl. f_equal.
  rewrite map_map. rewrite <- (map_id cs) at 2. apply map_ext. intros c.
  unfold flip. destruct (String.eqb (key c) k) eqn:Hk; simpl; rewrite ?Hk;
    [|reflexivity].
  destruct c as [ck cl cv]. simpl. now rewrite negb_involutive.
Qed.

End ToggleFacts.

(** ** The header row and the rows of cells *)

Section RenderFacts.

Context {Value : Type}.
Variable undefined : Value.
Variable props : EnhancedPostTableProps.

Lemma visible_columns_defined (cs : list Column) :
  visible_columns (map Some cs) = Shown (filter visible cs).
Proof.
  induction cs as [|c r IH]; simpl; [reflexivity|].
  rewrite IH. now destruct (visible c).
Qed.

Lemma visible_columns_undefined (cols : list (option Column)) :
  In None cols -> visible_columns cols = Crashed UndefinedColumn.
Proof.
  induction cols as [|[c|] r IH]; simpl; intros Hin.
  - contradiction.
  - destruct Hin as [H|H]; [discriminate|].
    rewrite (IH H). now destruct (visible c).
  - reflexivity.
Qed.

(** X11. The header row cannot be drawn when the column array holds an
    [undefined] entry.  Otherwise it has one cell for each visible column,
    in the order of the column list and none for a hidden one; a click on
    the cell sorts by the column's key, and the cell carries the chevron of
    the direction in the state when sorting is enabled and the column is
    the sort column. *)
Theorem header_row_shows_visible_columns (render : State Value) :
  (In None (columns render) ->
   header_row props render = Crashed UndefinedColumn)
  /\ (forall cs, columns render = map Some cs ->
        header_row props render =
          Shown
            (map (fun c =>
                    {| sorts_by := key c;
                       text := label c;
                       chevron :=
                         if isSort props
                            && is_sort_column (sortColumn render) (key c)
                         then Some (sortDirection render) else None |})
               (filter visible cs))).
Proof.
  unfold header_row. split.
  - intros Hin. now rewrite (visible_columns_undefined _ Hin).
  - intros cs ->. now rewrite visible_columns_defined.
Qed.

(** X12. When the header row can be drawn, so can the body: it has one row
    for each record, in the order of the records, and the cells of a row
    are the record's values under the keys of the header cells, cell by
    cell; a record without the key gives [undefined] there. *)
Theorem rows_line_up_with_header (render : State Value)
    (cells : list HeaderCell) :
  header_row props render = Shown cells ->
  exists rows,
    body_rows undefined render = Shown rows
    /\ Forall2
         (fun post row =>
            row = map (fun cell => JS.get undefined post (sorts_by cell)) cells)
         (results render) rows.
Proof.
  unfold header_row, body_rows, row_cells.
  destruct (visible_columns (columns render)) as [vs|e]; [|discriminate].
  intros Hcells. injection Hcells as <-.
  induction (results render) as [|post r IH]; simpl.
  - exists []. split; [reflexivity|constructor].
  - destruct IH as (rows & -> & Hrows). eexists. split; [reflexivity|].
    constructor; [|exact Hrows].
    rewrite map_map. reflexivity.
Qed.

End RenderFacts.

(** ** Dragging a column *)

Section DragFacts.

Context {Value : Type}.
Variable props : EnhancedPostTableProps.

(** The column list a drop with a destination leaves, capability enabled. *)
Lemma onDragEnd_columns (w : World Value) (result : DropResult)
    (dest : DraggableLocation) :
  columnToogle props = true ->
  destination result = Some dest ->
  columns (state (after (fun render => onDragEnd props render result) w)) =
    snd (JS.splice
           (snd (JS.splice (columns (state w)) (index (source result)) 1 []))
           (index dest) 0
           [JS.first_or None
              (fst (JS.splice (columns (state w)) (index (source result)) 1 []))]).
Proof.
  intros Hon Hdest. unfold after, dispatch, onDragEnd.
  rewrite Hdest, Hon. cbn [negb].
  destruct (JS.splice (columns (state w)) (index (source result)) 1 [])
    as [removed l1].
  cbn [fst snd].
  destruct (JS.splice l1 (index dest) 0 [JS.first_or None removed])
    as [ignored l2].
  reflexivity.
Qed.

(** The same list, written out, when both indices are inside the list. *)
Lemma splice_move_form {A : Type} (undefined : A) (l : list A) (src dst : Z) :
  0 <= src < Z.of_nat (List.length l) ->
  0 <= dst < Z.of_nat (List.length l) ->
  exists x,
    nth_error l (Z.to_nat src) = Some x
    /\ snd (JS.splice (snd (JS.splice l src 1 [])) dst 0
              [JS.first_or undefined (fst (JS.splice l src 1 []))])
       = firstn (Z.to_nat dst)
           (firstn (Z.to_nat src) l ++ skipn (S (Z.to_nat src)) l)
         ++ x :: skipn (Z.to_nat dst)
                  (firstn (Z.to_nat src) l ++ skipn (S (Z.to_nat src)) l).
Proof.
  intros Hsrc Hdst.
  rewrite (splice_in_range l [] src 1) by lia.
  set (s := Z.to_nat src). set (d := Z.to_nat dst).
  change (Z.to_nat 1) with 1%nat. rewrite Nat.add_1_r. cbn [app fst snd].
  assert (Hlen1 : List.length (firstn s l ++ skipn (S s) l)
                  = pred (List.length l)).
  { rewrite length_app, length_firstn, length_skipn. lia. }
  rewrite splice_in_range by (rewrite Hlen1; lia).
  fold d. change (Z.to_nat 0) with 0%nat. rewrite Nat.add_0_r. cbn [snd app].
  destruct (nth_error l s) as [x|] eqn:Hx;
    [|apply nth_error_None in Hx; lia].
  exists x. split; [reflexivity|].
  pose proof (nth_error_skipn s l 0) as H0.
  rewrite Nat.add_0_r, Hx in H0.
  destruct (skipn s l) as [|y r]; [discriminate|].
  simpl in H0. injection H0 as ->. reflexivity.
Qed.

Lemma origin_undone (s d i n : nat) :
  (s < n)%nat -> (d < n)%nat -> (i < n)%nat ->
  (origin d s i < n)%nat /\ origin s d (origin d s i) = i.
Proof.
  intros Hs Hd Hi. unfold origin.
  destruct (Nat.eqb_spec i s), (Nat.leb_spec d i), (Nat.ltb_spec i s),
    (Nat.ltb_spec s i), (Nat.leb_spec i d); cbn [andb]; try lia;
  repeat match goal with
         | |- context [Nat.eqb ?a ?b] => destruct (Nat.eqb_spec a b)
         | |- context [Nat.leb ?a ?b] => destruct (Nat.leb_spec a b)
         | |- context [Nat.ltb ?a ?b] => destruct (Nat.ltb_spec a b)
         end; cbn [andb]; lia.
Qed.

(** X13. A drop inside the list, capability enabled, rearranges the
    columns: none is lost, none is duplicated, none is changed. *)
Theorem onDragEnd_permutes (w : World Value) (result : DropResult)
    (dest : DraggableLocation) :
  columnToogle props = true ->
  destination result = Some dest ->
  0 <= index (source result) < Z.of_nat (List.length (columns (state w))) ->
  0 <= index dest < Z.of_nat (List.length (columns (state w))) ->
  Permutation (columns (state w))
    (columns (state (after (fun render => onDragEnd props render result) w))).
Proof.
  intros Hon Hdest Hsrc Hdst.
  rewrite (onDragEnd_columns w result dest Hon Hdest).
  destruct (splice_move_form None (columns (state w)) _ _ Hsrc Hdst)
    as (x & Hx & ->).
  rewrite <- (firstn_skipn_middle _ _ Hx) at 1.
  eapply perm_trans; [apply Permutation_sym, Permutation_middle|].
  eapply perm_trans; [|apply Permutation_middle].
  apply perm_skip. now rewrite firstn_skipn.
Qed.

(** X14. Dragging a column from [s] to [d] and then from [d] back to [s],
    both inside the list, gives back the column list. *)
Theorem onDragEnd_back_restores (w : World Value) (there back : DropResult)
    (d s : DraggableLocation) :
  columnToogle props = true ->
  destination there = Some d ->
  destination back = Some s ->
  index (source back) = index d ->
  index s = index (source there) ->
  0 <= index (source there) < Z.of_nat (List.length (columns (state w))) ->
  0 <= index d < Z.of_nat (List.length (columns (state w))) ->
  columns
    (state
       (after (fun render => onDragEnd props render back)
          (after (fun render => onDragEnd props render there) w)))
  = columns (state w).
Proof.
  intros Hon Hthere Hback Hsrc' Hdst' Hs Hd.
  set (w1 := after (fun render => onDragEnd props render there) w).
  pose proof (splice_moves None (columns (state w)) _ _ Hs Hd) as Hfirst.
  pose proof (onDragEnd_columns w there d Hon Hthere) as Hcols1. fold w1 in Hcols1.
  destruct (JS.splice (columns (state w)) (index (source there)) 1 [])
    as [removed l1].
  destruct (JS.splice l1 (index d) 0 [JS.first_or None removed])
    as [ignored l2] eqn:Hl2.
  cbn [fst snd] in Hcols1. rewrite Hl2 in Hcols1. cbn [snd] in Hcols1.
  destruct Hfirst as [Hlen1 Hnth1]. rewrite <- Hcols1 in Hlen1, Hnth1.
  assert (Hs1 : 0 <= index (source back)
                < Z.of_nat (List.length (columns (state w1)))) by lia.
  assert (Hd1 : 0 <= index s < Z.of_nat (List.length (columns (state w1))))
    by lia.
  pose proof (splice_moves None (columns (state w1)) _ _ Hs1 Hd1) as Hsecond.
  pose proof (onDragEnd_columns w1 back s Hon Hback) as Hcols2.
  destruct (JS.splice (columns (state w1)) (index (source back)) 1 [])
    as [removed' l1'].
  destruct (JS.splice l1' (index s) 0 [JS.first_or None removed'])
    as [ignored' l2'] eqn:Hl2'.
  cbn [fst snd] in Hcols2. rewrite Hl2' in Hcols2. cbn [snd] in Hcols2.
  destruct Hsecond as [Hlen2 Hnth2]. rewrite <- Hcols2 in Hlen2, Hnth2.
  apply nth_error_ext. intros i.
  destruct (Nat.lt_ge_cases i (List.length (columns (state w)))) as [Hi|Hi].
  - rewrite Hnth2 by lia.
    rewrite Hsrc', Hdst'.
    destruct (origin_undone (Z.to_nat (index (source there)))
                (Z.to_nat (index d)) i (List.length (columns (state w))))
      as [Hlt Hid]; try lia.
    rewrite Hnth1 by exact Hlt. now rewrite Hid.
  - rewrite (proj2 (nth_error_None (columns (state w)) i)) by lia.
    apply nth_error_None. lia.
Qed.

End DragFacts.

Section DragOutside.

Context {Value : Type}.
Variable props : EnhancedPostTableProps.

Lemma splice_past_end {A : Type} (l items : list A) (start count : Z) :
  Z.of_nat (List.length l) <= start ->
  JS.splice l start count items = ([], l ++ items).
Proof.
  intros Hstart. unfold JS.splice.
  destruct (Z.ltb_spec start 0) as [Hneg|_]; [lia|].
  rewrite (Z.min_r start) by lia. rewrite Z.sub_diag.
  replace (Z.to_nat (Z.min (Z.max count 0) 0)) with 0%nat by lia.
  rewrite Nat2Z.id, Nat.add_0_r, firstn_all, skipn_all, app_nil_r.
  reflexivity.
Qed.

Lemma splice_insert {A : Type} (l items : list A) (start : Z) :
  List.length (snd (JS.splice l start 0 items))
  = (List.length l + List.length items)%nat
  /\ forall x, In x items -> In x (snd (JS.splice l start 0 items)).
Proof.
  unfold JS.splice. cbn [snd].
  set (len := Z.of_nat (List.length l)).
  set (actualStart :=
         if start <? 0 then Z.max (len + start) 0 else Z.min start len).
  assert (Hstart : 0 <= actualStart <= len).
  { unfold actualStart. destruct (Z.ltb_spec start 0); lia. }
  replace (Z.to_nat (Z.min (Z.max 0 0) (len - actualStart))) with 0%nat by lia.
  rewrite Nat.add_0_r. split.
  - rewrite !length_app, length_firstn, length_skipn. lia.
  - intros x Hx. apply in_or_app. right. apply in_or_app. now left.
Qed.

(** X15. A drop whose source index is at or past the end of the list,
    capability enabled and destination present, takes no column out and
    puts [undefined] in: the list is one longer and holds an [undefined]
    entry.  From then on the header row cannot be drawn and
    [toggleColumnVisibility] throws. *)
Theorem drag_from_past_the_end_breaks_the_table (w : World Value)
    (result : DropResult) (dest : DraggableLocation) (k : string) :
  columnToogle props = true ->
  destination result = Some dest ->
  Z.of_nat (List.length (columns (state w))) <= index (source result) ->
  let w' := after (fun render => onDragEnd props render result) w in
  List.length (columns (state w')) = S (List.length (columns (state w)))
  /\ In None (columns (state w'))
  /\ header_row props (state w') = Crashed UndefinedColumn
  /\ dispatch (fun render => toggleColumnVisibility props render k) w'
     = (Throw TypeError, w').
Proof.
  intros Hon Hdest Hsrc w'.
  assert (Hcols : columns (state w') =
                  snd (JS.splice (columns (state w)) (index dest) 0 [None])).
  { unfold w'. rewrite (onDragEnd_columns props w result dest Hon Hdest).
    rewrite (splice_past_end _ [] _ 1 Hsrc). cbn [fst snd JS.first_or].
    now rewrite app_nil_r. }
  destruct (splice_insert (columns (state w)) [None] (index dest))
    as [Hlen Hin].
  assert (Hundef : In None (columns (state w'))).
  { rewrite Hcols. apply Hin. now left. }
  split; [rewrite Hcols, Hlen; simpl; lia|].
  split; [exact Hundef|]. split.
  - unfold header_row. now rewrite (visible_columns_undefined _ Hundef).
  - unfold dispatch, toggleColumnVisibility. rewrite Hon. cbn [negb].
    now rewrite (map_throwing_undefined k _ Hundef).
Qed.

End DragOutside.

(** ** Sorting by a column, continued *)

Section SortMore.

Context {Value : Type}.
Variable undefined : Value.
Variable lt : Value -> Value -> bool.
Variable props : EnhancedPostTableProps.

(** A list already in the comparator's order comes back as it is. *)
Lemma sort_fixed {A : Type} (cmp : A -> A -> Z) (l : list A) :
  StronglySorted (fun a b => cmp a b <= 0) l -> JS.sort cmp l = l.
Proof.
  induction 1 as [|x r Hr IH Hx]; simpl; [reflexivity|].
  rewrite IH. destruct Hx as [|y r' Hy Hr']; simpl; [reflexivity|].
  destruct (Z.ltb_spec 0 (cmp x y)); [lia|reflexivity].
Qed.

(** For a strict weak order the comparator of [handleSort] is consistent. *)
Lemma compare_by_consistent (direction : Direction) (column : string) :
  (forall a b, lt a b = true -> lt b a = false) ->
  (forall a b c, lt b a = false -> lt c b = false -> lt c a = false) ->
  (forall a b, 0 < compare_by undefined lt direction column a b ->
               compare_by undefined lt direction column b a <= 0)
  /\ (forall a b c,
        compare_by undefined lt direction column a b <= 0 ->
        compare_by undefined lt direction column b c <= 0 ->
        compare_by undefined lt direction column a c <= 0).
Proof.
  intros Hasym Hneg. unfold compare_by. split.
  - intros a b.
    destruct direction;
      destruct (lt (JS.get undefined a column) (JS.get undefined b column))
        eqn:Hab;
      destruct (lt (JS.get undefined b column) (JS.get undefined a column))
        eqn:Hba;
      try (apply Hasym in Hab; congruence); lia.
  - intros a b c.
    destruct direction;
      destruct (lt (JS.get undefined a column) (JS.get undefined b column))
        eqn:Hab;
      destruct (lt (JS.get undefined b column) (JS.get undefined a column))
        eqn:Hba;
      destruct (lt (JS.get undefined b column) (JS.get undefined c column))
        eqn:Hbc;
      destruct (lt (JS.get undefined c column) (JS.get undefined b column))
        eqn:Hcb;
      destruct (lt (JS.get undefined a column) (JS.get undefined c column))
        eqn:Hac;
      destruct (lt (JS.get undefined c column) (JS.get undefined a column))
        eqn:Hca;
      try lia;
      try (apply Hasym in Hab; congruence);
      try (apply Hasym in Hbc; congruence);
      try (apply Hasym in Hac; congruence);
      try (rewrite (Hneg _ _ _ Hba Hcb) in Hca; discriminate);
      try (rewrite (Hneg _ _ _ Hbc Hab) in Hac; discriminate).
Qed.

(** X16. When [<] is a strict weak order on the values, sorting is enabled,
    the state holds direction [asc] and another sort column (or none), two
    clicks on a header leave the rows exactly as one click does, in
    ascending order, while the direction in the state, and with it the
    chevron, goes to [desc]. *)
Theorem second_click_changes_no_row (w : World Value) (column : string) :
  (forall a b, lt a b = true -> lt b a = false) ->
  (forall a b c, lt b a = false -> lt c b = false -> lt c a = false) ->
  isSort props = true ->
  sortDirection (state w) = asc ->
  sortColumn (state w) <> Some column ->
  let click := after (fun render => handleSort undefined lt props render column) in
  results (state (click (click w))) = results (state (click w))
  /\ sortDirection (state (click w)) = asc
  /\ sortDirection (state (click (click w))) = desc.
Proof.
  intros Hasym Hneg Hflag Hasc Hother click.
  assert (Hfirst : sortColumn (state (click w)) = Some column
                   /\ sortDirection (state (click w)) = asc).
  { unfold click, after, dispatch, handleSort. rewrite Hflag. cbn [negb].
    destruct (is_sort_column (sortColumn (state w)) column) eqn:Hc.
    - apply is_sort_column_true in Hc. contradiction.
    - split; reflexivity. }
  destruct Hfirst as [Hcol1 Hdir1].
  split; [|split; [exact Hdir1|]].
  - unfold click at 1. rewrite handleSort_results by exact Hflag.
    rewrite Hdir1. apply sort_fixed.
    unfold click. rewrite handleSort_results by exact Hflag. rewrite Hasc.
    destruct (compare_by_consistent asc column Hasym Hneg) as [Htotal Htrans].
    now apply sort_sorted.
  - unfold click at 1. unfold after, dispatch, handleSort.
    rewrite Hflag. cbn [negb].
    rewrite (proj2 (is_sort_column_true _ _) Hcol1). simpl.
    now rewrite Hdir1.
Qed.

(** X17. Sorting by a column that no record has, when [undefined] is not
    less than itself, leaves the rows in the order they were in. *)
Theorem sort_by_missing_column_keeps_order (w : World Value) (column : string) :
  isSort props = true ->
  lt undefined undefined = false ->
  (forall post, In post (results (state w)) ->
                JS.get undefined post column = undefined) ->
  results
    (state (after (fun render => handleSort undefined lt props render column) w))
  = results (state w).
Proof.
  intros Hflag Hirr Hmissing. rewrite handleSort_results by exact Hflag.
  apply sort_fixed.
  induction (results (state w)) as [|post r IH]; constructor.
  - apply IH. intros p Hp. apply Hmissing. now right.
  - apply Forall_forall. intros p Hp. unfold compare_by.
    rewrite (Hmissing post) by now left.
    rewrite (Hmissing p) by now right.
    rewrite Hirr. lia.
Qed.

End SortMore.

(** ** Reading back a printed integer *)

Lemma parse_digits_uint (d : Decimal.uint) :
  forall acc : Z,
    JS.parse_digits (Some acc) (NilEmpty.string_of_uint d)
    = Some (uint_value acc d).
Proof.
  induction d; intros acc; cbn [NilEmpty.string_of_uint uint_value];
    try reflexivity;
    (cbn [JS.parse_digits]; rewrite <- IHd; reflexivity).
Qed.

Lemma uint_value_of_uint_acc (d : Decimal.uint) :
  forall p : positive, Z.pos (Pos.of_uint_acc d p) = uint_value (Z.pos p) d.
Proof.
  induction d; intros p; cbn [Pos.of_uint_acc uint_value];
    try reflexivity;
    (rewrite IHd; f_equal; lia).
Qed.

Lemma uint_value_of_uint (d : Decimal.uint) : Z.of_uint d = uint_value 0 d.
Proof.
  unfold Z.of_uint.
  induction d; cbn [Pos.of_uint uint_value]; try reflexivity;
    try exact IHd;
    (cbn [Z.of_N]; rewrite uint_value_of_uint_acc; reflexivity).
Qed.

(** [parseInt] on the decimal digits of a numeral. *)
Lemma parse_digits_numeral (d : Decimal.uint) :
  JS.parse_digits None (NilZero.string_of_uint d) = Some (uint_value 0 d).
Proof.
  destruct d;
    cbn [NilZero.string_of_uint NilEmpty.string_of_uint uint_value];
    try reflexivity;
    (rewrite <- parse_digits_uint; reflexivity).
Qed.

Lemma parseInt_numeral (d : Decimal.uint) :
  JS.parseInt (NilZero.string_of_uint d) = JS.Int (uint_value 0 d).
Proof.
  pose proof (parse_digits_numeral d) as Hdigits.
  destruct d; cbn [NilZero.string_of_uint NilEmpty.string_of_uint] in *;
    [reflexivity|..];
    (unfold JS.parseInt; cbn [JS.skip_white_space];
     match goal with
     | |- context [JS.is_white_space ?c] =>
         change (JS.is_white_space c) with false
     end;
     cbv beta iota zeta; now rewrite Hdigits).
Qed.

(** [parseInt(String(z), 10)] is [z], for every integer. *)
Lemma parseInt_number_to_string (z : Z) :
  JS.parseInt (JS.number_to_string (JS.Int z)) = JS.Int z.
Proof.
  pose proof (DecimalZ.of_to z) as Hback.
  unfold JS.number_to_string. destruct z as [|p|p]; [reflexivity| |].
  - cbn [Z.to_int NilZero.string_of_int] in *. cbn [Z.of_int] in Hback.
    rewrite parseInt_numeral, <- uint_value_of_uint.
    now f_equal.
  - cbn [Z.to_int NilZero.string_of_int] in *. cbn [Z.of_int] in Hback.
    unfold JS.parseInt. cbn [JS.skip_white_space].
    replace (JS.is_white_space "-") with false by reflexivity.
    cbv iota beta.
    rewrite parse_digits_numeral, <- uint_value_of_uint.
    f_equal. exact Hback.
Qed.

(** ** Fetching a page, continued *)

Lemma page_buttons_drawable {Value : Type} (render : State Value) (tp : Z) :
  totalPages render = JS.Int tp ->
  0 <= tp ->
  exists buttons, page_buttons render = Shown buttons.
Proof.
  intros Htp Hsome. unfold page_buttons. rewrite Htp, Math_min_int.
  unfold Array_indices.
  destruct (Z.ltb_spec (Z.min 5 tp) 0); [lia|].
  destruct (Z.ltb_spec 4294967295 (Z.min 5 tp)); [lia|].
  eexists. reflexivity.
Qed.

Section FetchMore.

Context {Value : Type}.
Variable props : EnhancedPostTableProps.
Variable net : Network Value.

(** X18. Whatever the endpoint does, [fetchResults] returns normally with
    [isLoading] cleared, having sent one request; it logs one error when
    the request is rejected or the body does not decode, and nothing when
    the fetch succeeds. *)
Theorem fetchResults_logs_only_failures (page : JS.number) (w : World Value) :
  exists w',
    fetchResults props net page w = (Normal tt, w')
    /\ isLoading (state w') = false
    /\ trace w' =
         trace w ++ Request (request_url props page)
         :: match net (request_url props page) with
            | Rejects => [ConsoleError "Error fetching results:" FetchRejected]
            | Resolves response =>
                match json response with
                | None => [ConsoleError "Error fetching results:" JsonRejected]
                | Some _ => []
                end
            end.
Proof.
  unfold fetchResults, try_catch_finally, bind, fetch, response_json,
    setIsLoading, setResults, setTotalPages, setColumns, modify, emit,
    throw, ret.
  simpl.
  destruct (net (request_url props page)) as [|response]; simpl.
  - eexists; split; [reflexivity|]; simpl; split; [reflexivity|].
    now rewrite <- app_assoc.
  - destruct (json response) as [[|first rest]|]; simpl;
      (eexists; split; [reflexivity|]; simpl; split; [reflexivity|]);
      now rewrite <- ?app_assoc.
Qed.

(** X19. A fetch that succeeds stores the body as the rows, in the order
    received, and does not touch the sort state: the sort column and the
    direction stay what they were, and the rows are not sorted again. *)
Theorem fetch_keeps_sort_state_not_order (page : JS.number) (w : World Value)
    (response : Response Value) (data : list (Post Value)) :
  net (request_url props page) = Resolves response ->
  json response = Some data ->
  let s' := state (snd (fetchResults props net page w)) in
  results s' = data
  /\ sortColumn s' = sortColumn (state w)
  /\ sortDirection s' = sortDirection (state w).
Proof.
  intros Hnet Hjson s'.
  destruct (fetchResults_resolved props net page w response data Hnet Hjson)
    as (w1 & Hrun & Hres & _).
  destruct (fetchResults_frame props net page w)
    as (w2 & Hrun2 & _ & _ & _ & _ & Hcol & Hdir & _).
  unfold s'. rewrite Hrun in *. injection Hrun2 as <-.
  cbn [snd]. auto.
Qed.

(** X20. When the endpoint prints the total count [n] in decimal in the
    [x-total-count] header and the page size is positive, a fetch that
    succeeds sets [totalPages] to the least integer [k] with
    [n <= pagePerRecord * k]; for [n >= 0] it is not negative, so the
    pagination strip can be drawn. *)
Theorem decimal_count_gives_page_count (page : JS.number) (w : World Value)
    (response : Response Value) (data : list (Post Value)) (n : Z) :
  0 < pagePerRecord props ->
  net (request_url props page) = Resolves response ->
  json response = Some data ->
  headers_get response "x-total-count"
  = Some (JS.number_to_string (JS.Int n)) ->
  let s' := state (snd (fetchResults props net page w)) in
  exists k,
    totalPages s' = JS.Int k
    /\ pagePerRecord props * (k - 1) < n <= pagePerRecord props * k
    /\ (0 <= n -> exists buttons, page_buttons s' = Shown buttons).
Proof.
  intros Hsize Hnet Hjson Hheader s'.
  destruct (fetchResults_resolved props net page w response data Hnet Hjson)
    as (w1 & Hrun & _ & _ & Hpages & _).
  unfold s'. rewrite Hrun. cbn [snd].
  assert (Hdefault :
            JS.or_default (Some (JS.number_to_string (JS.Int n))) "0"
            = JS.number_to_string (JS.Int n)).
  { pose proof (parseInt_number_to_string n) as Hparse.
    destruct (JS.number_to_string (JS.Int n)); [discriminate Hparse|].
    reflexivity. }
  rewrite Hheader, Hdefault, parseInt_number_to_string in Hpages.
  unfold JS.Math_ceil_div in Hpages.
  destruct (Z.eqb_spec (pagePerRecord props) 0) as [Hzero|_]; [lia|].
  exists (- (- n / pagePerRecord props)). split; [exact Hpages|].
  pose proof (Z.div_mod (- n) (pagePerRecord props)).
  pose proof (Z.mod_pos_bound (- n) (pagePerRecord props) Hsize).
  split; [nia|].
  intros Hn. apply (page_buttons_drawable _ _ Hpages). nia.
Qed.

End FetchMore.

(** ** Events and the fetch effect *)

Section EffectFacts.

Context {Value : Type}.
Variable undefined : Value.
Variable lt : Value -> Value -> bool.
Variable props : EnhancedPostTableProps.
Variable net : Network Value.

Lemma Object_is_refl (n : JS.number) : Object_is n n = true.
Proof. destruct n; simpl; auto using Z.eqb_refl. Qed.

(** The effect after a handler that sends nothing itself. *)
Lemma react_after_quiet_handler (h : State Value -> Handler Value)
    (w : World Value) :
  trace (after h w) = trace w ->
  currentPage (state (react props net h w)) = currentPage (state (after h w))
  /\ requests (trace (react props net h w)) =
       requests (trace w)
       ++ (if Object_is (currentPage (state w)) (currentPage (state (after h w)))
           then []
           else [request_url props (currentPage (state (after h w)))]).
Proof.
  intros Hquiet. unfold react. set (w1 := after h w) in *.
  destruct (Object_is (currentPage (state w)) (currentPage (state w1))).
  - rewrite Hquiet, app_nil_r. now split.
  - change (after (effect props net) w1)
      with (snd (fetchResults props net (currentPage (state w1)) w1)).
    destruct (fetchResults_frame props net (currentPage (state w1)) w1)
      as (w2 & Hrun & _ & Hpage & _ & _ & _ & _ & Hreq).
    rewrite Hrun. cbn [snd]. rewrite Hpage, Hreq, Hquiet. now split.
Qed.

(** X21. A press of a pagination button, or a click on a numbered page
    button, is followed by one request, for the page it has moved to,
    when [currentPage] has changed, and by none when it has not; the page
    stays the one the handler set. *)
Theorem page_change_fetches_the_new_page (w : World Value) :
  (forall a,
     currentPage (state (react props net (navigate a) w))
     = currentPage (state (after (navigate a) w))
     /\ requests (trace (react props net (navigate a) w)) =
          requests (trace w)
          ++ (if Object_is (currentPage (state w))
                   (currentPage (state (after (navigate a) w)))
              then []
              else [request_url props
                      (currentPage (state (after (navigate a) w)))]))
  /\ (forall n,
        currentPage (state (react props net (fun _ => goTo n) w)) = n
        /\ requests (trace (react props net (fun _ => goTo n) w)) =
             requests (trace w)
             ++ (if Object_is (currentPage (state w)) n then []
                 else [request_url props n])).
Proof.
  split.
  - intros a. apply react_after_quiet_handler.
    apply (navigate_keeps_the_rest a w).
  - intros n.
    apply (react_after_quiet_handler (fun _ => goTo n) w). reflexivity.
Qed.

(** X22. With the filter capability enabled, [applyFilter] is followed by
    one request for page 1 when the table is on page 1, and by two
    requests for page 1 when it is on another page: one from the handler
    and one from the effect that the change of [currentPage] triggers. *)
Theorem applyFilter_fetches_twice_off_page_one (w : World Value) :
  isFilter props = true ->
  requests (trace (react props net (fun _ => applyFilter props net) w)) =
    requests (trace w)
    ++ (if Object_is (currentPage (state w)) (JS.Int 1)
        then [request_url props (JS.Int 1)]
        else [request_url props (JS.Int 1); request_url props (JS.Int 1)]).
Proof.
  intros Hflag. unfold react.
  assert (Hafter :
            currentPage (state (after (fun _ => applyFilter props net) w))
            = JS.Int 1
            /\ requests (trace (after (fun _ => applyFilter props net) w))
               = requests (trace w) ++ [request_url props (JS.Int 1)]).
  { unfold after, dispatch, applyFilter. rewrite Hflag.
    unfold bind, setCurrentPage, modify. cbn [negb].
    match goal with
    | |- context [fetchResults props net ?p ?x] =>
        destruct (fetchResults_frame props net p x)
          as (w2 & Hrun & _ & Hpage & _ & _ & _ & _ & Hreq)
    end.
    rewrite Hrun. cbn [snd]. rewrite Hpage, Hreq. now split. }
  destruct Hafter as [Hpage Hreq]. rewrite Hpage.
  destruct (Object_is (currentPage (state w)) (JS.Int 1)); [exact Hreq|].
  set (w1 := after (fun _ => applyFilter props net) w) in *.
  change (after (effect props net) w1)
    with (snd (fetchResults props net (currentPage (state w1)) w1)).
  rewrite Hpage.
  destruct (fetchResults_frame props net (JS.Int 1) w1)
    as (w3 & Hrun3 & _ & _ & _ & _ & _ & _ & Hreq3).
  rewrite Hrun3. cbn [snd]. rewrite Hreq3, Hreq, <- app_assoc. reflexivity.
Qed.

(** X23. Sorting, toggling a column and reordering columns never send a
    request and never change the page, enabled or not, returning or
    throwing; no fetch follows them. *)
Theorem local_actions_never_fetch (a : Action) (w : World Value) :
  a <> ApplyFilter ->
  let w' := react props net (perform undefined lt props net a) w in
  trace w' = trace w
  /\ currentPage (state w') = currentPage (state w)
  /\ totalPages (state w') = totalPages (state w).
Proof.
  intros Hlocal w'.
  assert (Hquiet :
            trace (after (perform undefined lt props net a) w) = trace w
            /\ currentPage (state (after (perform undefined lt props net a) w))
               = currentPage (state w)
            /\ totalPages (state (after (perform undefined lt props net a) w))
               = totalPages (state w)).
  { unfold after, dispatch. destruct a as [column|k|result|]; simpl.
    - unfold handleSort. destruct (isSort props); cbn [negb];
        [|repeat split].
      destruct (is_sort_column (sortColumn (state w)) column); repeat split.
    - unfold toggleColumnVisibility. destruct (columnToogle props);
        cbn [negb]; [|repeat split].
      destruct (map_throwing (toggle_one k) (columns (state w)));
        repeat split.
    - unfold onDragEnd. destruct (destination result); [|repeat split].
      destruct (columnToogle props); cbn [negb]; [|repeat split].
      destruct (JS.splice (columns (state w)) (index (source result)) 1 [])
        as [removed l1].
      destruct (JS.splice l1 (index d) 0 [JS.first_or None removed])
        as [ignored l2].
      repeat split.
    - contradiction. }
  destruct Hquiet as (Htrace & Hpage & Hpages).
  unfold w', react. rewrite Hpage, Object_is_refl. auto.
Qed.

End EffectFacts.

(** ** Dragging a column, the edges *)

Section DragEdges.

Context {Value : Type}.
Variable props : EnhancedPostTableProps.

(** X24. Dropping a column at the index it was taken from, inside the
    list, leaves the column list as it was. *)
Theorem drop_in_place_changes_nothing (w : World Value) (result : DropResult)
    (dest : DraggableLocation) :
  columnToogle props = true ->
  destination result = Some dest ->
  index dest = index (source result) ->
  0 <= index (source result) < Z.of_nat (List.length (columns (state w))) ->
  columns (state (after (fun render => onDragEnd props render result) w))
  = columns (state w).
Proof.
  intros Hon Hdest Hsame Hsrc.
  assert (Hdst : 0 <= index dest < Z.of_nat (List.length (columns (state w))))
    by lia.
  pose proof (splice_moves None (columns (state w)) _ _ Hsrc Hdst) as Hmove.
  rewrite (onDragEnd_columns props w result dest Hon Hdest).
  destruct (JS.splice (columns (state w)) (index (source result)) 1 [])
    as [removed l1].
  cbn [fst snd] in *.
  destruct (JS.splice l1 (index dest) 0 [JS.first_or None removed])
    as [ignored l2].
  cbn [fst snd] in *. destruct Hmove as [Hlen Hnth].
  apply nth_error_ext. intros i.
  destruct (Nat.lt_ge_cases i (List.length (columns (state w)))) as [Hi|Hi].
  - rewrite (Hnth i Hi), Hsame. f_equal. unfold origin.
    repeat match goal with
           | |- context [Nat.eqb ?a ?b] => destruct (Nat.eqb_spec a b)
           | |- context [Nat.leb ?a ?b] => destruct (Nat.leb_spec a b)
           | |- context [Nat.ltb ?a ?b] => destruct (Nat.ltb_spec a b)
           end; cbn [andb]; lia.
  - rewrite (proj2 (nth_error_None (columns (state w)) i)) by lia.
    apply nth_error_None. lia.
Qed.

(** X25. A destination index at or past the last position, with the source
    inside the list, puts the dragged column last and keeps the others in
    their order. *)
Theorem drop_past_the_end_moves_last (w : World Value) (result : DropResult)
    (dest : DraggableLocation) (col : option Column) :
  columnToogle props = true ->
  destination result = Some dest ->
  0 <= index (source result) < Z.of_nat (List.length (columns (state w))) ->
  Z.of_nat (List.length (columns (state w))) - 1 <= index dest ->
  nth_error (columns (state w)) (Z.to_nat (index (source result))) = Some col ->
  columns (state (after (fun render => onDragEnd props render result) w))
  = firstn (Z.to_nat (index (source result))) (columns (state w))
    ++ skipn (S (Z.to_nat (index (source result)))) (columns (state w))
    ++ [col].
Proof.
  intros Hon Hdest Hsrc Hdst Hcol.
  rewrite (onDragEnd_columns props w result dest Hon Hdest).
  rewrite (splice_in_range (columns (state w)) [] _ 1) by lia.
  set (s := Z.to_nat (index (source result))) in *.
  change (Z.to_nat 1) with 1%nat. rewrite Nat.add_1_r. cbn [app fst snd].
  assert (Hlen1 : List.length (firstn s (columns (state w))
                               ++ skipn (S s) (columns (state w)))
                  = pred (List.length (columns (state w)))).
  { rewrite length_app, length_firstn, length_skipn. lia. }
  rewrite splice_past_end by (rewrite Hlen1; lia).
  cbn [snd]. rewrite <- app_assoc. do 3 f_equal.
  pose proof (nth_error_skipn s (columns (state w)) 0) as H0.
  rewrite Nat.add_0_r, Hcol in H0.
  destruct (skipn s (columns (state w))) as [|y r]; [discriminate|].
  simpl in H0. injection H0 as ->. reflexivity.
Qed.

End DragEdges.

(** ** The further properties at work on the sample endpoints *)

Lemma button_disabled_iff_press_is_idle_witness :
  let w := mount Sample.props (Numbers.serving 47) in
  (currentPage (state w) = JS.Int 1 /\ totalPages (state w) = JS.Int 5
   /\ isLoading (state w) = false)
  /\ (previous_disabled (state w) = true
      <-> currentPage (state (after (navigate Previous) w))
          = currentPage (state w)).
Proof.
  split.
  - repeat split.
  - apply (button_disabled_iff_press_is_idle Previous
             (mount Sample.props (Numbers.serving 47)) 1 5); reflexivity.
Defined.

Lemma next_and_previous_are_inverse_witness :
  let w := mount Sample.props (Numbers.serving 47) in
  (currentPage (state w) = JS.Int 1 /\ totalPages (state w) = JS.Int 5
   /\ 1 <= 1 < 5)
  /\ currentPage (state (navigate_all [Next; Previous] w)) = JS.Int 1.
Proof.
  split.
  - repeat split; lia.
  - apply (proj1 (next_and_previous_are_inverse
                    (mount Sample.props (Numbers.serving 47)) 1 5
                    eq_refl eq_refl)).
    lia.
Defined.

Lemma NaN_page_count_poisons_navigation_witness :
  let w := mount Sample.props (Sample.serving (Some "abc")) in
  let w' := navigate_all [Next; Previous; Previous; Next] w in
  totalPages (state w) = JS.NaN
  /\ currentPage (state w') = JS.NaN
  /\ next_disabled (state w') = isLoading (state w).
Proof.
  split.
  - reflexivity.
  - apply (NaN_page_count_poisons_navigation [Previous; Previous; Next]
             (mount Sample.props (Sample.serving (Some "abc")))).
    reflexivity.
Defined.

Lemma page_buttons_window_witness :
  let render := state (mount Sample.props (Numbers.serving 47)) in
  (currentPage render = JS.Int 1 /\ totalPages render = JS.Int 5 /\ 0 <= 5)
  /\ exists buttons,
       page_buttons render = Shown buttons
       /\ (List.length buttons <= 5)%nat
       /\ (forall n, In (JS.Int n) (map pageNumber buttons)
                     <-> 1 <= n <= 5 /\ 1 - 2 <= n < 1 - 2 + Z.min 5 5)
       /\ (forall b, In b buttons ->
             exists n, pageNumber b = JS.Int n
                       /\ current b = (1 =? n)
                       /\ disabled b = isLoading render).
Proof.
  split.
  - repeat split; lia.
  - apply (page_buttons_window
             (state (mount Sample.props (Numbers.serving 47))) 1 5);
      [reflexivity|reflexivity|lia].
Defined.

Lemma current_page_button_needs_three_pages_witness :
  let render := state (mount Sample.props (Numbers.serving 17)) in
  (currentPage render = JS.Int 1 /\ totalPages render = JS.Int 2
   /\ 1 <= 1 <= 2)
  /\ exists buttons,
       page_buttons render = Shown buttons
       /\ ((exists b, In b buttons /\ current b = true) <-> 3 <= 2).
Proof.
  split.
  - repeat split; lia.
  - apply (current_page_button_needs_three_pages
             (state (mount Sample.props (Numbers.serving 17))) 1 2);
      [reflexivity|reflexivity|lia].
Defined.

Lemma drawn_button_goes_to_a_page_witness :
  let w := mount Sample.props (Numbers.serving 47) in
  let third :=
    {| pageNumber := JS.Int 3; current := false; disabled := false |} in
  let w' := after (fun _ => goTo (pageNumber third)) w in
  (currentPage (state w) = JS.Int 1 /\ totalPages (state w) = JS.Int 5)
  /\ currentPage (state w') = JS.Int 3
  /\ in_page_range (currentPage (state w')) (totalPages (state w')).
Proof.
  split.
  - repeat split.
  - apply (drawn_button_goes_to_a_page
             (mount Sample.props (Numbers.serving 47)) 1 5
             [{| pageNumber := JS.Int 1; current := true; disabled := false |};
              {| pageNumber := JS.Int 2; current := false; disabled := false |};
              {| pageNumber := JS.Int 3; current := false; disabled := false |}]
             {| pageNumber := JS.Int 3; current := false; disabled := false |});
      [reflexivity|reflexivity|reflexivity|simpl; auto].
Defined.

Lemma toggle_throws_iff_undefined_column_witness :
  let broken :=
    after (fun render => onDragEnd Sample.props render (Sample.drop 7 1))
      (Sample.with_columns Sample.three_columns) in
  columnToogle Sample.props = true
  /\ In None (columns (state broken))
  /\ dispatch (fun render => toggleColumnVisibility Sample.props render "a")
       broken
     = (Throw TypeError, broken).
Proof.
  split; [reflexivity|]. split; [simpl; auto|].
  apply (proj1 (toggle_throws_iff_undefined_column Sample.props
                  (after (fun render =>
                            onDragEnd Sample.props render (Sample.drop 7 1))
                     (Sample.with_columns Sample.three_columns))
                  "a" eq_refl)).
  simpl. auto.
Defined.

Lemma toggle_flips_only_that_key_witness :
  let w := Sample.with_columns Sample.three_columns in
  let w' :=
    after (fun render => toggleColumnVisibility Sample.props render "b") w in
  columnToogle Sample.props = true
  /\ exists cs',
       columns (state w') = map Some cs'
       /\ Forall2
            (fun c c' =>
               key c' = key c /\ label c' = label c
               /\ visible c' =
                    if String.eqb (key c) "b" then negb (visible c)
                    else visible c)
            [column_of_key "a"; column_of_key "b"; column_of_key "c"] cs'
       /\ results (state w') = results (state w)
       /\ sortColumn (state w') = sortColumn (state w)
       /\ currentPage (state w') = currentPage (state w)
       /\ trace w' = trace w.
Proof.
  split; [reflexivity|].
  apply (toggle_flips_only_that_key Sample.props
           (Sample.with_columns Sample.three_columns) "b"
           [column_of_key "a"; column_of_key "b"; column_of_key "c"]);
    reflexivity.
Defined.

Lemma toggle_twice_restores_witness :
  let w := Sample.with_columns Sample.three_columns in
  let toggle := after (fun render => toggleColumnVisibility Sample.props render "b") in
  columnToogle Sample.props = true
  /\ ~ In None (columns (state w))
  /\ columns (state (toggle (toggle w))) = columns (state w).
Proof.
  assert (Hdefined : ~ In None Sample.three_columns).
  { simpl. intros [H|[H|[H|[]]]]; discriminate. }
  split; [reflexivity|]. split; [exact Hdefined|].
  apply (toggle_twice_restores Sample.props
           (Sample.with_columns Sample.three_columns) "b" eq_refl Hdefined).
Defined.

Lemma header_row_shows_visible_columns_witness :
  let hidden :=
    after (fun render => toggleColumnVisibility Sample.props render "userId")
      (Sample.click_header "id" Sample.fetched) in
  columns (state hidden) =
    map Some
      [{| key := "userId"; label := "USERID"; visible := false |};
       {| key := "id"; label := "ID"; visible := true |}]
  /\ header_row Sample.props (state hidden) =
       Shown [{| sorts_by := "id"; text := "ID"; chevron := Some asc |}].
Proof.
  split; [reflexivity|].
  apply (proj2 (header_row_shows_visible_columns Sample.props
                  (state
                     (after (fun render =>
                               toggleColumnVisibility Sample.props render
                                 "userId")
                        (Sample.click_header "id" Sample.fetched))))
           [{| key := "userId"; label := "USERID"; visible := false |};
            {| key := "id"; label := "ID"; visible := true |}]).
  reflexivity.
Defined.

Lemma rows_line_up_with_header_witness :
  let render := state Sample.fetched in
  let cells :=
    [{| sorts_by := "userId"; text := "USERID"; chevron := None |};
     {| sorts_by := "id"; text := "ID"; chevron := None |}] in
  header_row Sample.props render = Shown cells
  /\ exists rows,
       body_rows Sample.undefined render = Shown rows
       /\ Forall2
            (fun post row =>
               row = map (fun cell =>
                            JS.get Sample.undefined post (sorts_by cell)) cells)
            (results render) rows.
Proof.
  split; [reflexivity|].
  apply (rows_line_up_with_header Sample.undefined Sample.props
           (state Sample.fetched)).
  reflexivity.
Defined.

Lemma onDragEnd_permutes_witness :
  let w := Sample.with_columns Sample.three_columns in
  (columnToogle Sample.props = true /\ 0 <= 2 < 3 /\ 0 <= 0 < 3)
  /\ Permutation (columns (state w))
       (columns
          (state (after (fun render =>
                           onDragEnd Sample.props render (Sample.drop 2 0)) w))).
Proof.
  split.
  - repeat split; lia.
  - apply (onDragEnd_permutes Sample.props
             (Sample.with_columns Sample.three_columns) (Sample.drop 2 0)
             {| droppableId := "columns"; index := 0 |});
      [reflexivity|reflexivity|simpl; lia|simpl; lia].
Defined.

Lemma onDragEnd_back_restores_witness :
  let w := Sample.with_columns Sample.three_columns in
  (columnToogle Sample.props = true /\ 0 <= 0 < 3 /\ 0 <= 2 < 3)
  /\ columns
       (state
          (after (fun render => onDragEnd Sample.props render (Sample.drop 2 0))
             (after (fun render =>
                       onDragEnd Sample.props render (Sample.drop 0 2)) w)))
     = columns (state w).
Proof.
  split.
  - repeat split; lia.
  - apply (onDragEnd_back_restores Sample.props
             (Sample.with_columns Sample.three_columns)
             (Sample.drop 0 2) (Sample.drop 2 0)
             {| droppableId := "columns"; index := 2 |}
             {| droppableId := "columns"; index := 0 |});
      [reflexivity|reflexivity|reflexivity|reflexivity|reflexivity
      |simpl; lia|simpl; lia].
Defined.

Lemma drag_from_past_the_end_breaks_the_table_witness :
  let w := Sample.with_columns Sample.three_columns in
  let w' :=
    after (fun render => onDragEnd Sample.props render (Sample.drop 3 0)) w in
  (columnToogle Sample.props = true /\ 3 <= 3)
  /\ List.length (columns (state w')) = 4%nat
  /\ In None (columns (state w'))
  /\ header_row Sample.props (state w') = Crashed UndefinedColumn
  /\ dispatch (fun render => toggleColumnVisibility Sample.props render "a") w'
     = (Throw TypeError, w').
Proof.
  split.
  - split; [reflexivity|lia].
  - apply (drag_from_past_the_end_breaks_the_table Sample.props
             (Sample.with_columns Sample.three_columns) (Sample.drop 3 0)
             {| droppableId := "columns"; index := 0 |} "a");
      [reflexivity|reflexivity|simpl; lia].
Defined.

Lemma second_click_changes_no_row_witness :
  let w := mount Sample.props (Numbers.serving 4) in
  let click :=
    after (fun render => handleSort 0 Z.ltb Sample.props render "id") in
  (isSort Sample.props = true /\ sortDirection (state w) = asc
   /\ sortColumn (state w) <> Some "id")
  /\ results (state (click (click w))) = results (state (click w))
  /\ sortDirection (state (click w)) = asc
  /\ sortDirection (state (click (click w))) = desc.
Proof.
  split.
  - repeat split. discriminate.
  - apply (second_click_changes_no_row 0 Z.ltb Sample.props
             (mount Sample.props (Numbers.serving 4)) "id").
    + intros a b H. apply Z.ltb_lt in H. apply Z.ltb_ge. lia.
    + intros a b c Hba Hcb. apply Z.ltb_ge in Hba, Hcb. apply Z.ltb_ge. lia.
    + reflexivity.
    + reflexivity.
    + discriminate.
Defined.

Lemma sort_by_missing_column_keeps_order_witness :
  (isSort Sample.props = true
   /\ Sample.lt Sample.undefined Sample.undefined = false)
  /\ results
       (state
          (after (fun render =>
                    handleSort Sample.undefined Sample.lt Sample.props render
                      "title")
             Sample.fetched))
     = results (state Sample.fetched).
Proof.
  split.
  - split; reflexivity.
  - apply (sort_by_missing_column_keeps_order Sample.undefined Sample.lt
             Sample.props Sample.fetched "title");
      [reflexivity|reflexivity|].
    intros post Hin. simpl in Hin.
    destruct Hin as [<-|[<-|[<-|[]]]]; reflexivity.
Defined.

Lemma fetch_keeps_sort_state_not_order_witness :
  let sorted := Sample.click_header "id" Sample.fetched in
  let s' :=
    state (snd (fetchResults Sample.props (Sample.serving (Some "3"))
                  (JS.Int 1) sorted)) in
  sortColumn (state sorted) = Some "id"
  /\ results s' = Sample.page
  /\ sortColumn s' = Some "id"
  /\ sortDirection s' = asc.
Proof.
  split; [reflexivity|].
  apply (fetch_keeps_sort_state_not_order Sample.props
           (Sample.serving (Some "3")) (JS.Int 1)
           (Sample.click_header "id" Sample.fetched)
           {| json := Some Sample.page;
              headers_get := fun name =>
                if String.eqb name "x-total-count" then Some "3" else None |}
           Sample.page); reflexivity.
Defined.

Lemma decimal_count_gives_page_count_witness :
  let s' :=
    state (snd (fetchResults Sample.props (Numbers.serving 47) (JS.Int 1)
                  {| state := initial; trace := [] |})) in
  0 < pagePerRecord Sample.props
  /\ exists k,
       totalPages s' = JS.Int k
       /\ 10 * (k - 1) < 47 <= 10 * k
       /\ (0 <= 47 -> exists buttons, page_buttons s' = Shown buttons).
Proof.
  split; [simpl; lia|].
  apply (decimal_count_gives_page_count Sample.props (Numbers.serving 47)
           (JS.Int 1) {| state := initial; trace := [] |}
           {| json := Some Numbers.page;
              headers_get := fun name =>
                if String.eqb name "x-total-count"
                then Some (JS.number_to_string (JS.Int 47)) else None |}
           Numbers.page 47); [simpl; lia|reflexivity|reflexivity|reflexivity].
Defined.

Lemma applyFilter_fetches_twice_off_page_one_witness :
  let net := Numbers.serving 47 in
  let second := react Sample.props net (navigate Next) (mount Sample.props net) in
  (isFilter Sample.props = true /\ currentPage (state second) = JS.Int 2)
  /\ requests
       (trace (react Sample.props net (fun _ => applyFilter Sample.props net)
                 second))
     = requests (trace second)
       ++ ["https://example.test/posts?_page=1&_limit=10";
           "https://example.test/posts?_page=1&_limit=10"].
Proof.
  split.
  - split; reflexivity.
  - apply (applyFilter_fetches_twice_off_page_one Sample.props
             (Numbers.serving 47)
             (react Sample.props (Numbers.serving 47) (navigate Next)
                (mount Sample.props (Numbers.serving 47)))).
    reflexivity.
Defined.

Lemma local_actions_never_fetch_witness :
  let w := Sample.fetched in
  let w' :=
    react Sample.props Sample.unreachable
      (perform Sample.undefined Sample.lt Sample.props Sample.unreachable
         (Sort "id")) w in
  Sort "id" <> ApplyFilter
  /\ trace w' = trace w
  /\ currentPage (state w') = currentPage (state w)
  /\ totalPages (state w') = totalPages (state w).
Proof.
  split; [discriminate|].
  apply (local_actions_never_fetch Sample.undefined Sample.lt Sample.props
           Sample.unreachable (Sort "id") Sample.fetched).
  discriminate.
Defined.

Lemma drop_in_place_changes_nothing_witness :
  let w := Sample.with_columns Sample.three_columns in
  (columnToogle Sample.props = true /\ 0 <= 1 < 3)
  /\ columns
       (state (after (fun render =>
                        onDragEnd Sample.props render (Sample.drop 1 1)) w))
     = columns (state w).
Proof.
  split.
  - split; [reflexivity|lia].
  - apply (drop_in_place_changes_nothing Sample.props
             (Sample.with_columns Sample.three_columns) (Sample.drop 1 1)
             {| droppableId := "columns"; index := 1 |});
      [reflexivity|reflexivity|reflexivity|simpl; lia].
Defined.

Lemma drop_past_the_end_moves_last_witness :
  let w := Sample.with_columns Sample.three_columns in
  (columnToogle Sample.props = true /\ 0 <= 0 < 3 /\ 3 - 1 <= 9)
  /\ columns
       (state (after (fun render =>
                        onDragEnd Sample.props render (Sample.drop 0 9)) w))
     = [Some (column_of_key "b"); Some (column_of_key "c");
        Some (column_of_key "a")].
Proof.
  split.
  - repeat split; lia.
  - apply (drop_past_the_end_moves_last Sample.props
             (Sample.with_columns Sample.three_columns) (Sample.drop 0 9)
             {| droppableId := "columns"; index := 9 |}
             (Some (column_of_key "a")));
      [reflexivity|reflexivity|simpl; lia|simpl; lia|reflexivity].
Defined.

Lemma handleSort_orders_witness :
  let w := mount Sample.props (Numbers.serving 4) in
  (isSort Sample.props = true /\ sortDirection (state w) = asc)
  /\ StronglySorted
       (fun a b =>
          match sortDirection (state w) with
          | asc => Z.ltb (JS.get 0 b "id") (JS.get 0 a "id")
          | desc => Z.ltb (JS.get 0 a "id") (JS.get 0 b "id")
          end = false)
       (results
          (state
             (after (fun render => handleSort 0 Z.ltb Sample.props render "id")
                w))).
Proof.
  split.
  - split; reflexivity.
  - apply (handleSort_orders 0 Z.ltb Sample.props
             (mount Sample.props (Numbers.serving 4)) "id").
    + intros a b H. apply Z.ltb_lt in H. apply Z.ltb_ge. lia.
    + intros a b c Hba Hcb. apply Z.ltb_ge in Hba, Hcb. apply Z.ltb_ge. lia.
    + reflexivity.
Defined.
